(** * Task tracker: persistence and state synchronisation

    A shallow embedding of [Task_tracker.py]: the [todo] and [subtasks]
    relations, the statements the callbacks execute against them, the
    session-state cache of tasks, the mutation callbacks, the list filter
    and sort of the main page, and the task card.

    Conventions of the embedding.
    - A relation with an integer primary key is a finite map from the key to
      the remaining columns of the row.
    - [st.session_state] is a finite map from widget keys to widget values,
      kept in one map per kind of value (text, date, flag), plus the
      entry stored under [SESSION_STATE_KEY_TODOS].
    - A callback is a function from the state of the world (store, session
      state, notifications) to an outcome and a new state.  A Python
      exception is the outcome [Raise]; the state it is paired with is the
      state at the point of the raise.
    - The store accepts every statement: connectivity loss and column
      length limits, which depend on the configured backend, are not part
      of the embedding. *)

From Stdlib Require Import ZArith String Ascii List Lia.
From stdpp Require Import base option list gmap strings fin_maps pretty sorting.

Local Open Scope Z_scope.

(** ** Calendar dates ([datetime.date]) *)

Definition is_leap (y : Z) : bool :=
  (y mod 4 =? 0) && (negb (y mod 100 =? 0) || (y mod 400 =? 0)).

Definition days_in_month (y m : Z) : Z :=
  if m =? 2 then (if is_leap y then 29 else 28)
  else if (m =? 4) || (m =? 6) || (m =? 9) || (m =? 11) then 30
  else 31.

(** [date(y, m, d)] raises unless MINYEAR <= y <= MAXYEAR, 1 <= m <= 12 and
    1 <= d <= days in that month. *)
Definition valid_date (y m d : Z) : bool :=
  (1 <=? y) && (y <=? 9999) && (1 <=? m) && (m <=? 12)
  && (1 <=? d) && (d <=? days_in_month y m).

Record date := Date {
  year : Z;
  month : Z;
  day : Z;
  date_valid : valid_date year month day = true
}.

(** [date.max] *)
Definition date_max : date := Date 9999 12 31 eq_refl.

(** Dates compare as the triples (year, month, day). *)
Definition date_ltb (a b : date) : bool :=
  (year a <? year b)
  || ((year a =? year b)
      && ((month a <? month b)
          || ((month a =? month b) && (day a <? day b)))).

Definition date_eqb (a b : date) : bool :=
  (year a =? year b) && (month a =? month b) && (day a =? day b).

Definition date_leb (a b : date) : bool := date_ltb a b || date_eqb a b.

(** ** Schema ([connect_table]) *)

(** The columns of a row of [todo] besides the primary key [id]. *)
Module TodoRow.
Record t := make {
  title : string;
  description : option string;
  label : option string;
  priority : option string;
  status : option string;
  requester : option string;
  created_at : option date;
  due_at : option date;
  done : bool
}.

(** The row an insert starts from: the column defaults of the schema
    ([priority] "medium", [status] "to-do"), nothing elsewhere. *)
Definition blank : t :=
  make "" None None (Some "medium"%string) (Some "to-do"%string) None None None false.
End TodoRow.

(** The columns of a row of [subtasks] besides the primary key [id]. *)
Module SubtaskRow.
Record t := make {
  todo_id : Z;
  title : string;
  done : bool
}.
End SubtaskRow.

(** ** Models *)

Module Todo.
Record t := make {
  id : Z;
  title : string;
  description : option string;
  label : option string;
  requester : option string;
  priority : option string;
  status : option string;
  created_at : option date;
  due_at : option date;
  done : bool
}.

(** The keyword arguments of [cls] are the columns of the row. *)
Definition of_columns (k : Z) (r : TodoRow.t) : t :=
  make k (TodoRow.title r) (TodoRow.description r) (TodoRow.label r)
    (TodoRow.requester r) (TodoRow.priority r) (TodoRow.status r)
    (TodoRow.created_at r) (TodoRow.due_at r) (TodoRow.done r).

(** A row read back from [todo] as a [Todo]; no row, no [Todo]. *)
Definition from_row (row : option (Z * TodoRow.t)) : option t :=
  match row with
  | Some (k, r) => Some (of_columns k r)
  | None => None
  end.
End Todo.

Module Subtask.
Record t := make {
  id : Z;
  todo_id : Z;
  title : string;
  done : bool
}.

Definition from_row (row : Z * SubtaskRow.t) : t :=
  make (fst row) (SubtaskRow.todo_id (snd row)) (SubtaskRow.title (snd row))
    (SubtaskRow.done (snd row)).
End Subtask.

(** ** Statements *)

(** One [column=value] pair of the keyword arguments of [values] on the
    [todo] table. *)
Inductive Assignment :=
| SetTitle (v : string)
| SetDescription (v : option string)
| SetLabel (v : option string)
| SetPriority (v : option string)
| SetStatus (v : option string)
| SetRequester (v : option string)
| SetCreatedAt (v : option date)
| SetDueAt (v : option date)
| SetDone (v : bool).

Definition assign (r : TodoRow.t) (a : Assignment) : TodoRow.t :=
  let 'TodoRow.make t d l p s q c u b := r in
  match a with
  | SetTitle v => TodoRow.make v d l p s q c u b
  | SetDescription v => TodoRow.make t v l p s q c u b
  | SetLabel v => TodoRow.make t d v p s q c u b
  | SetPriority v => TodoRow.make t d l v s q c u b
  | SetStatus v => TodoRow.make t d l p v q c u b
  | SetRequester v => TodoRow.make t d l p s v c u b
  | SetCreatedAt v => TodoRow.make t d l p s q v u b
  | SetDueAt v => TodoRow.make t d l p s q c v b
  | SetDone v => TodoRow.make t d l p s q c u v
  end.

Definition assign_all (values : list Assignment) (r : TodoRow.t) : TodoRow.t :=
  fold_left assign values r.

(** The statements that write. *)
Inductive Statement :=
| InsertTodo (values : list Assignment)
| UpdateTodo (todo_id : Z) (values : list Assignment)
| DeleteTodo (todo_id : Z)
| InsertSubtask (todo_id : Z) (title : string) (done : bool)
| UpdateSubtask (subtask_id : Z) (done : bool)
| UpdateSubtasksOf (todo_id : Z) (done : bool).

(** ** The store *)

Record Database := mkDatabase {
  todo_table : gmap Z TodoRow.t;
  subtask_table : gmap Z SubtaskRow.t;
  executed : list Statement   (* the write statements committed so far, oldest first *)
}.

Definition set_subtask_done (b : bool) (r : SubtaskRow.t) : SubtaskRow.t :=
  SubtaskRow.make (SubtaskRow.todo_id r) (SubtaskRow.title r) b.

Definition is_write_to_todo (stmt : Statement) : bool :=
  match stmt with
  | InsertTodo _ | UpdateTodo _ _ | DeleteTodo _ => true
  | _ => false
  end.

(** ** Session state and the state of the world *)

Record SessionState := mkSessionState {
  text_state : gmap string (option string);  (* text inputs, text areas, select boxes *)
  date_state : gmap string (option date);    (* date inputs *)
  flag_state : gmap string bool;             (* the currently_editing__ flags *)
  todos_data : option (gmap Z (option Todo.t))  (* SESSION_STATE_KEY_TODOS *)
}.

(** What a run of the script has put on the page. *)
Inductive Element :=
| Subheader (body : string)
| Markdown (body : string)
| Caption (body : string)
| Button (label key : string) (disabled : bool)
| Divider
| Progress (completed total : nat) (text : string)
| Checkbox (label : string) (value : bool) (key : string)
| TextInput (label key : string)
| FormSubmitButton (label : string).

Record World := mkWorld {
  db : Database;
  session : SessionState;
  toasts : list string;
  page : list Element
}.

(** [RerunException] is what [st.rerun()] raises to end the run. *)
Inductive Exception := KeyError | AttributeError | RerunException.

Inductive Outcome (A : Type) :=
| Return (a : A)
| Raise (e : Exception).
Arguments Return {A} a.
Arguments Raise {A} e.

(** A run of Python code against the world. *)
Definition Run (A : Type) : Type := World → Outcome A * World.

Definition ret {A} (a : A) : Run A := λ w, (Return a, w).

Definition raise {A} (e : Exception) : Run A := λ w, (Raise e, w).

Definition bind {A B} (m : Run A) (k : A → Run B) : Run B :=
  λ w, match m w with
       | (Return a, w') => k a w'
       | (Raise e, w') => (Raise e, w')
       end.

Notation "x <- m ;; k" := (bind m (λ x, k))
  (at level 100, m at next level, right associativity).
Notation "m ;; k" := (bind m (λ _, k))
  (at level 100, right associativity).

Definition with_session (f : SessionState → SessionState) (w : World) : World :=
  mkWorld (db w) (f (session w)) (toasts w) (page w).

Definition with_db (f : Database → Database) (w : World) : World :=
  mkWorld (f (db w)) (session w) (toasts w) (page w).

(** [st.toast(msg)] *)
Definition toast (msg : string) : Run unit :=
  λ w, (Return tt, mkWorld (db w) (session w) (toasts w ++ [msg]) (page w)).

(** A display call such as [st.markdown(body)]. *)
Definition emit (e : Element) : Run unit :=
  λ w, (Return tt, mkWorld (db w) (session w) (toasts w) (page w ++ [e])).

(** [st.session_state[key]] on a key that holds text; a missing key raises
    [KeyError]. *)
Definition text_item (key : string) : Run (option string) :=
  λ w, match text_state (session w) !! key with
       | Some v => (Return v, w)
       | None => (Raise KeyError, w)
       end.

Definition date_item (key : string) : Run (option date) :=
  λ w, match date_state (session w) !! key with
       | Some v => (Return v, w)
       | None => (Raise KeyError, w)
       end.

(** [st.session_state.key]; a missing key raises [AttributeError]. *)
Definition text_attr (key : string) : Run (option string) :=
  λ w, match text_state (session w) !! key with
       | Some v => (Return v, w)
       | None => (Raise AttributeError, w)
       end.

Definition date_attr (key : string) : Run (option date) :=
  λ w, match date_state (session w) !! key with
       | Some v => (Return v, w)
       | None => (Raise AttributeError, w)
       end.

Definition set_flag (key : string) (b : bool) : Run unit :=
  λ w, (Return tt,
        with_session (λ s, mkSessionState (text_state s) (date_state s)
                             (<[key := b]> (flag_state s)) (todos_data s)) w).

(** [st.session_state[SESSION_STATE_KEY_TODOS] = todos] *)
Definition set_todos (todos : gmap Z (option Todo.t)) : Run unit :=
  λ w, (Return tt,
        with_session (λ s, mkSessionState (text_state s) (date_state s)
                             (flag_state s) (Some todos)) w).

(** [st.session_state[SESSION_STATE_KEY_TODOS]] *)
Definition get_todos : Run (gmap Z (option Todo.t)) :=
  λ w, match todos_data (session w) with
       | Some todos => (Return todos, w)
       | None => (Raise KeyError, w)
       end.

(** [st.session_state[SESSION_STATE_KEY_TODOS][todo_id]] *)
Definition get_todo_item (todo_id : Z) : Run (option Todo.t) :=
  todos <- get_todos ;;
  match todos !! todo_id with
  | Some v => ret v
  | None => raise KeyError
  end.

(** [st.session_state[SESSION_STATE_KEY_TODOS][todo_id] = v]: the dict
    stored in the session is updated in place. *)
Definition set_todo_item (todo_id : Z) (v : option Todo.t) : Run unit :=
  todos <- get_todos ;;
  set_todos (<[todo_id := v]> todos).

(** Attribute [done] of a cache entry; the entry may be [None]. *)
Definition attr_done (v : option Todo.t) : Run bool :=
  match v with
  | Some todo => ret (Todo.done todo)
  | None => raise AttributeError
  end.

(** ** Widget keys and forms *)

Definition new_todo_form_key (field : string) : string :=
  "new_todo_form__" +:+ field.

Definition edit_todo_form_key (todo_id : Z) (field : string) : string :=
  "edit_todo_form_" +:+ pretty todo_id +:+ "__" +:+ field.

Definition currently_editing_key (todo_id : Z) : string :=
  "currently_editing__" +:+ pretty todo_id.

(** The values the widgets of the form [new_todo_form] hold at submission. *)
Module NewTodoForm.
Record t := make {
  title : string;
  description : option string;
  requester : option string;
  priority : option string;
  status : option string;
  label : option string;
  due_date : option date
}.
End NewTodoForm.

(** The values the widgets of [todo_edit_widget] hold at submission: a
    title, a description and a due date. *)
Module EditTodoForm.
Record t := make {
  title : string;
  description : option string;
  due_date : option date
}.
End EditTodoForm.

(** Submitting [new_todo_form] puts the value of each of its widgets under
    the widget's key, then runs the callback of the submit button. *)
Definition new_todo_form (f : NewTodoForm.t) (w : World) : World :=
  with_session (λ s,
    mkSessionState
      (<[new_todo_form_key "title" := Some (NewTodoForm.title f)]>
       (<[new_todo_form_key "description" := NewTodoForm.description f]>
        (<[new_todo_form_key "requester" := NewTodoForm.requester f]>
         (<[new_todo_form_key "priority" := NewTodoForm.priority f]>
          (<[new_todo_form_key "status" := NewTodoForm.status f]>
           (<[new_todo_form_key "label" := NewTodoForm.label f]>
            (text_state s)))))))
      (<[new_todo_form_key "due_date" := NewTodoForm.due_date f]> (date_state s))
      (flag_state s) (todos_data s)) w.

(** Submitting the form of [todo_edit_widget]: it has three widgets. *)
Definition todo_edit_widget (todo_id : Z) (f : EditTodoForm.t) (w : World) : World :=
  with_session (λ s,
    mkSessionState
      (<[edit_todo_form_key todo_id "title" := Some (EditTodoForm.title f)]>
       (<[edit_todo_form_key todo_id "description" := EditTodoForm.description f]>
        (text_state s)))
      (<[edit_todo_form_key todo_id "due_date" := EditTodoForm.due_date f]> (date_state s))
      (flag_state s) (todos_data s)) w.

(** ** Reading from the store *)

(** [sa.select(table).order_by(table.c.id)], [result.all()]: every row. The
    rows go into a dict at once, so their order is not kept. *)
Definition select_todos (d : Database) : list (Z * TodoRow.t) :=
  map_to_list (todo_table d).

(** [sa.select(table).where(table.c.id == todo_id)], [result.first()] *)
Definition select_todo (todo_id : Z) (d : Database) : option (Z * TodoRow.t) :=
  (λ r, (todo_id, r)) <$> todo_table d !! todo_id.

(** [sa.select(subtask_table).where(subtask_table.c.todo_id == todo_id)] *)
Definition select_subtasks (todo_id : Z) (d : Database) : list (Z * SubtaskRow.t) :=
  filter (λ row, SubtaskRow.todo_id (snd row) = todo_id) (map_to_list (subtask_table d)).

(** A dict comprehension: a later pair replaces an earlier one with the
    same key. *)
Definition dict_of {V} (pairs : list (Z * V)) : gmap Z V :=
  list_to_map (reverse pairs).

Definition load_all_todos (d : Database) : gmap Z (option Todo.t) :=
  let todos := (λ row, Todo.from_row (Some row)) <$> select_todos d in
  dict_of (omap (λ todo, match todo with
                         | Some t => Some (Todo.id t, Some t)
                         | None => None
                         end) todos).

Definition load_todo (todo_id : Z) (d : Database) : option Todo.t :=
  Todo.from_row (select_todo todo_id d).

Definition load_subtasks (todo_id : Z) (d : Database) : list Subtask.t :=
  Subtask.from_row <$> select_subtasks todo_id d.

(** Reading from the store inside a run. *)
Definition query {A} (f : Database → A) : Run A :=
  λ w, (Return (f (db w)), w).

(** ** The list of the main page: filter and sort *)

(** [x in selected] for a field that may be [None] and a list of option
    strings of a multiselect: [x == o] for some [o] of the list, and [None]
    equals no string. *)
Fixpoint py_in (x : option string) (selected : list string) : bool :=
  match selected with
  | [] => false
  | o :: rest =>
      match x with
      | Some s => String.eqb s o
      | None => false
      end || py_in x rest
  end.

Definition keep_todo (filter_label filter_priority filter_status : list string)
    (hide_done : bool) (todo : Todo.t) : bool :=
  py_in (Todo.label todo) filter_label
  && py_in (Todo.priority todo) filter_priority
  && py_in (Todo.status todo) filter_status
  && (negb hide_done || negb (Todo.done todo)).

Definition filtered_todos (current_todos : list Todo.t)
    (filter_label filter_priority filter_status : list string)
    (hide_done : bool) : list Todo.t :=
  List.filter (keep_todo filter_label filter_priority filter_status hide_done)
    current_todos.

(** The options of the multiselects of the sidebar. *)
Definition priority_options : list string := ["low"; "medium"; "high"].
Definition status_options : list string :=
  ["to-do"; "in progress"; "completed"; "blocked"].
Definition label_options : list string := ["work"; "school"; "personal"; "others"].

(** The options of the select box [sort_by]. *)
Inductive SortBy := by_due_at | by_created_at.

Definition getattr (x : Todo.t) (sort_by : SortBy) : option date :=
  match sort_by with
  | by_due_at => Todo.due_at x
  | by_created_at => Todo.created_at x
  end.

(** [lambda x: getattr(x, sort_by) or date.max]; a date is never falsy. *)
Definition sort_key (sort_by : SortBy) (x : Todo.t) : date :=
  match getattr x sort_by with
  | Some d => d
  | None => date_max
  end.

(** [list.sort(key=..., reverse=...)] is a stable sort, also with
    [reverse=True]: elements with equal keys keep their order. The stable
    sorted arrangement of a list is unique; it is computed here by
    insertion from the right, an element going before the first element
    that may follow it. *)
Fixpoint insert_by (before : date → date → bool) (key : Todo.t → date)
    (x : Todo.t) (l : list Todo.t) : list Todo.t :=
  match l with
  | [] => [x]
  | y :: rest =>
      if before (key x) (key y) then x :: y :: rest
      else y :: insert_by before key x rest
  end.

Definition list_sort (key : Todo.t → date) (reverse : bool) (l : list Todo.t)
    : list Todo.t :=
  let before := if reverse then (λ a b, date_leb b a) else date_leb in
  foldr (insert_by before key) [] l.

Definition sorted_todos (sort_by : SortBy) (sort_ascending : string)
    (todos : list Todo.t) : list Todo.t :=
  let reverse_sort := String.eqb sort_ascending "Descending" in
  list_sort (sort_key sort_by) reverse_sort todos.

(** A date as one number that orders as the date does. *)
Definition date_code (d : date) : Z := year d * 10000 + month d * 100 + day d.

(** Two tasks in the order of their keys under a ranking of the dates. *)
Definition ordered_by (rank : date → Z) (key : Todo.t → date) (x y : Todo.t) : Prop :=
  rank (key x) ≤ rank (key y).

(** ** A store and a session to run the callbacks in *)

(** A store that numbers the rows of a relation serially: the key of a new
    row is one more than the largest key of the relation. *)
Definition serial {V} (m : gmap Z V) : Z :=
  1 + foldr (λ row acc, Z.max row.1 acc) 0 (map_to_list m).

Definition june_1_2024 : date := Date 2024 6 1 eq_refl.
Definition may_20_2024 : date := Date 2024 5 20 eq_refl.

(** The task of the scenario: "Write report", high, to-do, work, due on
    2024-06-01. *)
Definition report_row : TodoRow.t :=
  TodoRow.make "Write report" None (Some "work") (Some "high") (Some "to-do")
    None (Some may_20_2024) (Some june_1_2024) false.

Definition report_todo : Todo.t := Todo.of_columns 1 report_row.

Definition scenario_db : Database :=
  mkDatabase {[1 := report_row]} {[1 := SubtaskRow.make 1 "Outline" false]} [].

(** The session after its first run on that store. *)
Definition scenario : World :=
  mkWorld scenario_db
    (mkSessionState ∅ ∅ ∅ (Some (load_all_todos scenario_db))) [] [].

(** Stand-ins for the three functions of the Python library. *)
Definition plain_title (s : string) : string := s.
Definition plain_strftime (d : date) (format : string) : string := format.
Definition plain_urlencode (params : list (string * string)) : string :=
  String.concat "&" ((λ p, p.1 +:+ "=" +:+ p.2) <$> params).

(** A task stored without a label. *)
Definition todo_unlabelled : Todo.t :=
  Todo.make 3 "c" None None None (Some "low") (Some "to-do") None
    (Some june_1_2024) false.

Definition scenario_new_form : NewTodoForm.t :=
  NewTodoForm.make "Pay rent" (Some "") (Some "") (Some "medium") (Some "to-do")
    (Some "personal") (Some june_1_2024).

Definition scenario_edit_form : EditTodoForm.t :=
  EditTodoForm.make "Write report v2" None (Some june_1_2024).

(** A session state in which something has put a status and a requester
    under the keys of the edit form of task 1. *)
Definition scenario_with_status : World :=
  mkWorld scenario_db
    (mkSessionState
       {[edit_todo_form_key 1 "title" := Some "Write report v2";
         edit_todo_form_key 1 "description" := None;
         edit_todo_form_key 1 "status" := Some "in progress";
         edit_todo_form_key 1 "requester" := None]}
       {[edit_todo_form_key 1 "due_date" := Some june_1_2024]}
       ∅ (Some (load_all_todos scenario_db))) [] [].

(** The tasks whose key, when sorting by due date, is [date.max]: those
    with no due date and those due on [date.max] itself. *)
Definition undated_or_due_max (t : Todo.t) : bool :=
  match Todo.due_at t with
  | None => true
  | Some d => date_eqb d date_max
  end.

(** The two tasks of the counterexample: one without a due date, one due on
    [date.max]. *)
Definition todo_undated : Todo.t :=
  Todo.make 1 "a" None (Some "work") None (Some "low") (Some "to-do") None None false.

Definition todo_due_max : Todo.t :=
  Todo.make 2 "b" None (Some "work") None (Some "low") (Some "to-do") None
    (Some date_max) false.

Section TaskTracker.

(** The store generates the primary key of a row it inserts; a primary key
    is never the key of a row already in the relation. *)
Variable next_todo_id : gmap Z TodoRow.t → Z.
Variable next_subtask_id : gmap Z SubtaskRow.t → Z.
Hypothesis next_todo_id_fresh : ∀ m, m !! next_todo_id m = None.

(** ** Data interaction *)

(** [session.execute(stmt); session.commit()] for a statement that
    writes. An update or delete whose [where] matches no row changes no
    row. *)
Definition execute (stmt : Statement) (d : Database) : Database :=
  let log := executed d ++ [stmt] in
  match stmt with
  | InsertTodo values =>
      mkDatabase
        (<[next_todo_id (todo_table d) := assign_all values TodoRow.blank]> (todo_table d))
        (subtask_table d) log
  | UpdateTodo k values =>
      mkDatabase (alter (assign_all values) k (todo_table d)) (subtask_table d) log
  | DeleteTodo k =>
      mkDatabase (delete k (todo_table d)) (subtask_table d) log
  | InsertSubtask k t b =>
      mkDatabase (todo_table d)
        (<[next_subtask_id (subtask_table d) := SubtaskRow.make k t b]> (subtask_table d))
        log
  | UpdateSubtask k b =>
      mkDatabase (todo_table d) (alter (set_subtask_done b) k (subtask_table d)) log
  | UpdateSubtasksOf k b =>
      mkDatabase (todo_table d)
        ((λ r, if bool_decide (SubtaskRow.todo_id r = k)
               then set_subtask_done b r else r) <$> subtask_table d)
        log
  end.

Definition commit (stmt : Statement) : Run unit :=
  λ w, (Return tt, with_db (execute stmt) w).

(** ** Callbacks *)

Definition create_todo_callback (today : date) : Run unit :=
  title <- text_attr (new_todo_form_key "title") ;;
  match title with
  | None | Some "" => toast "Title empty, not adding todo"
  | Some title =>
      description <- text_attr (new_todo_form_key "description") ;;
      requester <- text_attr (new_todo_form_key "requester") ;;
      label <- text_attr (new_todo_form_key "label") ;;
      priority <- text_attr (new_todo_form_key "priority") ;;
      status <- text_attr (new_todo_form_key "status") ;;
      due_date <- date_attr (new_todo_form_key "due_date") ;;
      let new_todo_data :=
        [SetTitle title; SetDescription description; SetRequester requester;
         SetLabel label; SetPriority priority; SetStatus status;
         SetCreatedAt (Some today); SetDueAt due_date; SetDone false] in
      commit (InsertTodo new_todo_data) ;;
      todos <- query load_all_todos ;;
      set_todos todos
  end.

Definition open_update_callback (todo_id : Z) : Run unit :=
  set_flag (currently_editing_key todo_id) true.

Definition cancel_update_callback (todo_id : Z) : Run unit :=
  set_flag (currently_editing_key todo_id) false.

Definition update_todo_callback (todo_id : Z) : Run unit :=
  title <- text_item (edit_todo_form_key todo_id "title") ;;
  description <- text_item (edit_todo_form_key todo_id "description") ;;
  status <- text_item (edit_todo_form_key todo_id "status") ;;
  requester <- text_item (edit_todo_form_key todo_id "requester") ;;
  due_at <- date_item (edit_todo_form_key todo_id "due_date") ;;
  match title with
  | None | Some "" =>
      toast "Title cannot be empty." ;;
      set_flag (currently_editing_key todo_id) true
  | Some title =>
      let updated_values :=
        [SetTitle title; SetDescription description; SetStatus status;
         SetRequester requester; SetDueAt due_at] in
      commit (UpdateTodo todo_id updated_values) ;;
      todo <- query (load_todo todo_id) ;;
      set_todo_item todo_id todo ;;
      set_flag (currently_editing_key todo_id) false
  end.

Definition delete_todo_callback (todo_id : Z) : Run unit :=
  commit (DeleteTodo todo_id) ;;
  todos <- query load_all_todos ;;
  set_todos todos ;;
  set_flag (currently_editing_key todo_id) false.

Definition mark_done_callback (todo_id : Z) : Run unit :=
  item <- get_todo_item todo_id ;;
  current_done_status <- attr_done item ;;
  commit (UpdateTodo todo_id [SetDone (negb current_done_status)]) ;;
  todo <- query (load_todo todo_id) ;;
  set_todo_item todo_id todo.

Definition create_subtask (todo_id : Z) (title : string) : Run unit :=
  commit (InsertSubtask todo_id title false).

Definition toggle_subtask_done (subtask_id : Z) (new_done : bool) : Run unit :=
  commit (UpdateSubtask subtask_id new_done).

Definition mark_all_subtasks_done (todo_id : Z) : Run unit :=
  commit (UpdateSubtasksOf todo_id true).


(** ** UI widgets *)

(** Functions of the Python library the card calls; the results are
    opaque text. *)
Variable str_title : string → string.                   (* [str.title] *)
Variable strftime : date → string → string.             (* [date.strftime] *)
Variable urlencode : list (string * string) → string.   (* [urllib.parse.urlencode] *)

(** [x or default] on text: [None] and the empty string are falsy. *)
Definition text_or (x : option string) (default : string) : string :=
  match x with
  | None | Some "" => default
  | Some s => s
  end.

(** [due_date.strftime(format)]: [None] has no attribute [strftime]. *)
Definition attr_strftime (due_date : option date) (format : string) : Run string :=
  match due_date with
  | Some d => ret (strftime d format)
  | None => raise AttributeError
  end.

Definition generate_gcal_link (title : string) (description : option string)
    (due_date : option date) : Run string :=
  let base := "https://calendar.google.com/calendar/render" in
  start <- attr_strftime due_date "%Y%m%dT090000Z" ;;
  end_ <- attr_strftime due_date "%Y%m%dT100000Z" ;;
  let params :=
    [("action", "TEMPLATE");
     ("text", title);
     ("details", text_or description "No description provided.");
     ("dates", start +:+ "/" +:+ end_)] in
  ret (base +:+ "?" +:+ urlencode params).

Definition strike (done : bool) (text : string) : string :=
  if done then "~~" +:+ text +:+ "~~" else text.

Definition meta_item (icon : string) (field : option string) : list string :=
  match field with
  | None | Some "" => []
  | Some s => [icon +:+ " <strong>" +:+ str_title s +:+ "</strong>"]
  end.

Definition dquote : string := String (ascii_of_nat 34) "".

(** The check box of a subtask: its key is initialised to the stored
    value; a value that differs from the stored one is written to the
    store and the script is rerun. *)
Definition subtask_checkbox (sub : Subtask.t) : Run unit :=
  let label_text := strike (Subtask.done sub) (Subtask.title sub) in
  let checkbox_key := "subtask_" +:+ pretty (Subtask.id sub) in
  λ w,
    let flags := flag_state (session w) in
    let flags' := match flags !! checkbox_key with
                  | Some _ => flags
                  | None => <[checkbox_key := Subtask.done sub]> flags
                  end in
    let new_done := default (Subtask.done sub) (flags' !! checkbox_key) in
    let w' := with_session (λ s, mkSessionState (text_state s) (date_state s)
                                   flags' (todos_data s)) w in
    (emit (Checkbox label_text (Subtask.done sub) checkbox_key) ;;
     if negb (Bool.eqb new_done (Subtask.done sub))
     then toggle_subtask_done (Subtask.id sub) new_done ;; raise RerunException
     else ret tt) w'.

Fixpoint for_each {A} (f : A → Run unit) (l : list A) : Run unit :=
  match l with
  | [] => ret tt
  | x :: rest => f x ;; for_each f rest
  end.

(** One task as a card. A button that is not being clicked returns
    [False]; the card is rendered with no button clicked. *)
Definition todo_card (todo_item : Todo.t) : Run unit :=
  let todo_id := Todo.id todo_item in
  let done := Todo.done todo_item in
  emit (Subheader (strike done (Todo.title todo_item))) ;;
  let meta_items :=
    meta_item "🏷️" (Todo.label todo_item)
    ++ meta_item "🔵" (Todo.priority todo_item)
    ++ meta_item "📌" (Todo.status todo_item) in
  let meta_text := String.concat " &nbsp;|&nbsp; " meta_items in
  emit (Markdown ("<div style='text-align: right; font-size: 14px;'>"
                  +:+ meta_text +:+ "</div>")) ;;
  let display_description :=
    strike done (text_or (Todo.description todo_item) ":grey[*No description*]") in
  emit (Markdown display_description) ;;
  let display_requester := text_or (Todo.requester todo_item) ":grey[*No requester*]" in
  due <- attr_strftime (Todo.due_at todo_item) "%Y-%m-%d" ;;
  let display_due_date := strike done ("Due " +:+ due) in
  emit (Markdown ("**Requester:** " +:+ display_requester)) ;;
  emit (Caption display_due_date) ;;
  calendar_link <- generate_gcal_link (Todo.title todo_item)
                     (Todo.description todo_item) (Todo.due_at todo_item) ;;
  emit (Markdown ("<a href=" +:+ dquote +:+ calendar_link +:+ dquote
                  +:+ " target=" +:+ dquote +:+ "_blank" +:+ dquote
                  +:+ "><button style=" +:+ dquote
                  +:+ "background-color:#e0e0e0; color:#333; font-size:12px; padding:4px 8px; border:none; border-radius:4px;"
                  +:+ dquote +:+ ">📅 Add to Google Calendar</button></a>")) ;;
  emit (Button (if done then "Redo" else "Done")
          ("display_todo_" +:+ pretty todo_id +:+ "__done") false) ;;
  emit (Button "Edit" ("display_todo_" +:+ pretty todo_id +:+ "__edit") done) ;;
  emit (Button "Delete" ("display_todo_" +:+ pretty todo_id +:+ "__delete") false) ;;
  emit Divider ;;
  subtasks <- query (load_subtasks todo_id) ;;
  match subtasks with
  | [] => emit (Caption "No subtasks yet.")
  | _ :: _ =>
      emit (Markdown "**Subtasks:**") ;;
      let completed_count := length (List.filter Subtask.done subtasks) in
      let total_count := length subtasks in
      emit (Progress completed_count total_count
              (pretty completed_count +:+ "/" +:+ pretty total_count
               +:+ " completed")) ;;
      for_each subtask_checkbox subtasks ;;
      if (completed_count <? total_count)%nat
      then emit (Button "✅ Mark All Done" ("mark_all_done_" +:+ pretty todo_id) false)
      else ret tt
  end ;;
  emit (TextInput "Add subtask" ("new_subtask_" +:+ pretty todo_id)) ;;
  emit (FormSubmitButton "Add").

(** The first run of the script in a session loads the cache. *)
Definition load_session_todos : Run unit :=
  λ w, match todos_data (session w) with
       | Some _ => (Return tt, w)
       | None => (todos <- query load_all_todos ;; set_todos todos) w
       end.


(** ** The mutations and the submissions of the user interface *)

(** The four callbacks that write to the relation of tasks. *)
Inductive Mutation :=
| Create (today : date)
| Update (todo_id : Z)
| Delete (todo_id : Z)
| ToggleDone (todo_id : Z).

Definition run_mutation (m : Mutation) : Run unit :=
  match m with
  | Create today => create_todo_callback today
  | Update todo_id => update_todo_callback todo_id
  | Delete todo_id => delete_todo_callback todo_id
  | ToggleDone todo_id => mark_done_callback todo_id
  end.

(** A form submission: the widget values go into the session state, then
    the callback of the submit button runs. *)
Inductive Submission :=
| SubmitNew (today : date) (f : NewTodoForm.t)
| SubmitEdit (todo_id : Z) (f : EditTodoForm.t).

Definition submitted_title (s : Submission) : string :=
  match s with
  | SubmitNew _ f => NewTodoForm.title f
  | SubmitEdit _ f => EditTodoForm.title f
  end.

Definition submit (s : Submission) : Run unit :=
  λ w, match s with
       | SubmitNew today f => create_todo_callback today (new_todo_form f w)
       | SubmitEdit todo_id f => update_todo_callback todo_id (todo_edit_widget todo_id f w)
       end.

(** What can happen in a session: the script runs, the user submits a form
    or clicks a button. *)
Inductive Event :=
| FirstRun
| Submitted (s : Submission)
| EditCancelled (todo_id : Z) (f : EditTodoForm.t)
| EditOpened (todo_id : Z)
| DoneClicked (todo_id : Z)
| DeleteClicked (todo_id : Z)
| CardRendered (todo_item : Todo.t)
| SubtaskAdded (todo_id : Z) (title : string)
| AllSubtasksMarked (todo_id : Z).

Definition handle (e : Event) : Run unit :=
  match e with
  | FirstRun => load_session_todos
  | Submitted s => submit s
  | EditCancelled todo_id f =>
      λ w, cancel_update_callback todo_id (todo_edit_widget todo_id f w)
  | EditOpened todo_id => open_update_callback todo_id
  | DoneClicked todo_id => mark_done_callback todo_id
  | DeleteClicked todo_id => delete_todo_callback todo_id
  | CardRendered todo_item => todo_card todo_item
  | SubtaskAdded todo_id title => create_subtask todo_id title
  | AllSubtasksMarked todo_id => mark_all_subtasks_done todo_id
  end.

(** A new session has an empty session state; the store is whatever it
    is. *)
Definition new_session (d : Database) : World :=
  mkWorld d (mkSessionState ∅ ∅ ∅ None) [] [].

(** The states of a session, when nothing else writes to the store. *)
Inductive reachable : World → Prop :=
| reachable_new d : reachable (new_session d)
| reachable_handle e w o w' :
    reachable w → handle e w = (o, w') → reachable w'.

(** ** Predicates of the specification *)

(** The cache mirrors the relation of tasks: it is what [load_all_todos]
    returns on the store as it is. *)
Definition in_sync (w : World) : Prop :=
  todos_data (session w) = Some (load_all_todos (db w)).

(** The state a mutation callback runs to completion from. *)
Definition ready (m : Mutation) (w : World) : Prop :=
  match m with
  | Create _ =>
      ∃ f w0, w = new_todo_form f w0 ∧ NewTodoForm.title f ≠ ""
  | Update todo_id =>
      (∃ title, text_state (session w) !! edit_todo_form_key todo_id "title"
                = Some (Some title) ∧ title ≠ "")
      ∧ is_Some (text_state (session w) !! edit_todo_form_key todo_id "description")
      ∧ is_Some (text_state (session w) !! edit_todo_form_key todo_id "status")
      ∧ is_Some (text_state (session w) !! edit_todo_form_key todo_id "requester")
      ∧ is_Some (date_state (session w) !! edit_todo_form_key todo_id "due_date")
      ∧ is_Some (todos_data (session w))
  | Delete _ => True
  | ToggleDone todo_id =>
      ∃ todos todo, todos_data (session w) = Some todos
                    ∧ todos !! todo_id = Some (Some todo)
  end.

(** What the cache holds for the task a mutation affects (for [Create] and
    [Delete], the whole cache) is what the store returns when read again. *)
Definition reread (m : Mutation) (w : World) : Prop :=
  match m with
  | Create _ | Delete _ =>
      todos_data (session w) = Some (load_all_todos (db w))
  | Update todo_id | ToggleDone todo_id =>
      ∃ todos, todos_data (session w) = Some todos
               ∧ todos !! todo_id = Some (load_todo todo_id (db w))
  end.

(** Undated tasks come after (before) every dated task of a list. *)
Definition undated_last (l : list Todo.t) : Prop :=
  ∀ (i j : nat) a b,
    l !! i = Some a → l !! j = Some b →
    Todo.due_at a = None → Todo.due_at b ≠ None → (j < i)%nat.

Definition undated_first (l : list Todo.t) : Prop :=
  ∀ (i j : nat) a b,
    l !! i = Some a → l !! j = Some b →
    Todo.due_at a = None → Todo.due_at b ≠ None → (i < j)%nat.

(** The values [create_todo_callback] inserts for a submitted form. *)
Definition new_todo_data (today : date) (f : NewTodoForm.t) : list Assignment :=
  [SetTitle (NewTodoForm.title f); SetDescription (NewTodoForm.description f);
   SetRequester (NewTodoForm.requester f); SetLabel (NewTodoForm.label f);
   SetPriority (NewTodoForm.priority f); SetStatus (NewTodoForm.status f);
   SetCreatedAt (Some today); SetDueAt (NewTodoForm.due_date f); SetDone false].

(** The values [update_todo_callback] writes. *)
Definition updated_values (title : string) (description status requester : option string)
    (due_at : option date) : list Assignment :=
  [SetTitle title; SetDescription description; SetStatus status;
   SetRequester requester; SetDueAt due_at].

(** A run that leaves the relation of tasks, the cache and the text
    widgets alone. *)
Definition session_frame {A} (m : Run A) : Prop :=
  ∀ w o w', m w = (o, w') →
    todo_table (db w') = todo_table (db w)
    ∧ todos_data (session w') = todos_data (session w)
    ∧ text_state (session w') = text_state (session w).

(** In every state of a session: no key of an edit form holds a status,
    and the cache, once loaded, mirrors the store. *)
Definition session_invariant (w : World) : Prop :=
  (∀ todo_id, text_state (session w) !! edit_todo_form_key todo_id "status" = None)
  ∧ (is_Some (todos_data (session w)) → in_sync w).

(** ** Predicates on the rendering of a card *)

(** The key of the check box of a subtask. *)
Definition checkbox_key (subtask_id : Z) : string := "subtask_" +:+ pretty subtask_id.

(** A run that raises only exceptions of [allowed], and that writes to the
    store at most once: a change of the done flag of one subtask, after
    which it raises [RerunException]. *)
Definition card_frame (allowed : Exception → Prop) {A} (m : Run A) : Prop :=
  ∀ w o w', m w = (o, w') →
    (∀ e, o = Raise e → allowed e)
    ∧ (db w' = db w
       ∨ (o = Raise RerunException
          ∧ ∃ k b, db w' = execute (UpdateSubtask k b) (db w))).

(** The check box of a subtask has no pending change: its key is not in
    the session state, or holds the done flag of the subtask. *)
Definition checkbox_agrees (s : SessionState) (sub : Subtask.t) : Prop :=
  flag_state s !! checkbox_key (Subtask.id sub) = None
  ∨ flag_state s !! checkbox_key (Subtask.id sub) = Some (Subtask.done sub).

(** From every state on store [d] in which the check boxes of [subs] have
    no pending change, the run returns a value of [Q] and ends in such a
    state. *)
Definition returns (d : Database) (subs : list Subtask.t) {A} (m : Run A)
    (Q : A → Prop) : Prop :=
  ∀ w, db w = d → Forall (checkbox_agrees (session w)) subs →
    ∃ a w', m w = (Return a, w') ∧ Q a
            ∧ db w' = d ∧ Forall (checkbox_agrees (session w')) subs.

(** The options of the select box of the status in [new_todo_form]. *)
Definition new_todo_status_options : list string :=
  ["to-do"; "in progress"; "blocked"; "done"].

(** ** More states of the scenario *)

(** A task that is in no store of the scenario. *)
Definition todo_gone : Todo.t :=
  Todo.make 7 "Gone" None (Some "work") None (Some "low") (Some "to-do") None
    (Some june_1_2024) false.

(** A session whose cache still holds a task the store has lost. *)
Definition scenario_stale : World :=
  mkWorld scenario_db
    (mkSessionState ∅ ∅ ∅
       (Some (<[7 := Some todo_gone]> (load_all_todos scenario_db)))) [] [].

(** A stand-in for [str.strip]. *)
Definition plain_strip (s : string) : string := s.

(** A session in which "Draft" has been typed into the add form of task 1. *)
Definition scenario_typed : World :=
  mkWorld scenario_db
    (mkSessionState {[("new_subtask_" +:+ pretty 1) := Some "Draft"]} ∅ ∅
       (Some (load_all_todos scenario_db))) [] [].

(** A session in which the check box of subtask 1 has been ticked. *)
Definition scenario_ticked : World :=
  mkWorld scenario_db
    (mkSessionState ∅ ∅ {[checkbox_key 1 := true]}
       (Some (load_all_todos scenario_db))) [] [].

(** A task created with the status "done". *)
Definition todo_status_done : Todo.t :=
  Todo.make 4 "d" None (Some "work") None (Some "low") (Some "done") None
    (Some june_1_2024) false.

(** ** The card, with the click that caused the run *)

(** [str.strip] *)
Variable str_strip : string → string.

(** The button of a card whose click caused the run of the script, if any:
    that button returns [True] in the run, every other button [False]. The
    Done and Edit buttons act through their callbacks, the others through
    their return value. *)
Inductive Click := NoClick | DeleteClick | MarkAllDoneClick | AddSubtaskClick.

(** [st.text_input(label, key=key)] shows the widget and returns its value,
    the text under its key, or the empty string when there is none. *)
Definition text_input (label key : string) : Run string :=
  emit (TextInput label key) ;;
  λ w, (Return (match text_state (session w) !! key with
                | Some (Some s) => s
                | _ => ""
                end), w).

(** [todo_card], with the branches taken when a button returns [True]. *)
Definition todo_card_run (click : Click) (todo_item : Todo.t) : Run unit :=
  let todo_id := Todo.id todo_item in
  let done := Todo.done todo_item in
  emit (Subheader (strike done (Todo.title todo_item))) ;;
  let meta_items :=
    meta_item "🏷️" (Todo.label todo_item)
    ++ meta_item "🔵" (Todo.priority todo_item)
    ++ meta_item "📌" (Todo.status todo_item) in
  let meta_text := String.concat " &nbsp;|&nbsp; " meta_items in
  emit (Markdown ("<div style='text-align: right; font-size: 14px;'>"
                  +:+ meta_text +:+ "</div>")) ;;
  let display_description :=
    strike done (text_or (Todo.description todo_item) ":grey[*No description*]") in
  emit (Markdown display_description) ;;
  let display_requester := text_or (Todo.requester todo_item) ":grey[*No requester*]" in
  due <- attr_strftime (Todo.due_at todo_item) "%Y-%m-%d" ;;
  let display_due_date := strike done ("Due " +:+ due) in
  emit (Markdown ("**Requester:** " +:+ display_requester)) ;;
  emit (Caption display_due_date) ;;
  calendar_link <- generate_gcal_link (Todo.title todo_item)
                     (Todo.description todo_item) (Todo.due_at todo_item) ;;
  emit (Markdown ("<a href=" +:+ dquote +:+ calendar_link +:+ dquote
                  +:+ " target=" +:+ dquote +:+ "_blank" +:+ dquote
                  +:+ "><button style=" +:+ dquote
                  +:+ "background-color:#e0e0e0; color:#333; font-size:12px; padding:4px 8px; border:none; border-radius:4px;"
                  +:+ dquote +:+ ">📅 Add to Google Calendar</button></a>")) ;;
  emit (Button (if done then "Redo" else "Done")
          ("display_todo_" +:+ pretty todo_id +:+ "__done") false) ;;
  emit (Button "Edit" ("display_todo_" +:+ pretty todo_id +:+ "__edit") done) ;;
  emit (Button "Delete" ("display_todo_" +:+ pretty todo_id +:+ "__delete") false) ;;
  match click with
  | DeleteClick => delete_todo_callback todo_id ;; raise RerunException
  | _ => ret tt
  end ;;
  emit Divider ;;
  subtasks <- query (load_subtasks todo_id) ;;
  match subtasks with
  | [] => emit (Caption "No subtasks yet.")
  | _ :: _ =>
      emit (Markdown "**Subtasks:**") ;;
      let completed_count := length (List.filter Subtask.done subtasks) in
      let total_count := length subtasks in
      emit (Progress completed_count total_count
              (pretty completed_count +:+ "/" +:+ pretty total_count
               +:+ " completed")) ;;
      for_each subtask_checkbox subtasks ;;
      if (completed_count <? total_count)%nat
      then
        emit (Button "✅ Mark All Done" ("mark_all_done_" +:+ pretty todo_id) false) ;;
        match click with
        | MarkAllDoneClick => mark_all_subtasks_done todo_id ;; raise RerunException
        | _ => ret tt
        end
      else ret tt
  end ;;
  new_subtask <- text_input "Add subtask" ("new_subtask_" +:+ pretty todo_id) ;;
  emit (FormSubmitButton "Add") ;;
  match click with
  | AddSubtaskClick =>
      match str_strip new_subtask with
      | "" => ret tt
      | String _ _ => create_subtask todo_id (str_strip new_subtask) ;;
                      raise RerunException
      end
  | _ => ret tt
  end.

(** The one write a card can make in a run, from [w] to [w']: the done flag
    of a subtask whose check box has changed, or what the clicked button
    does. *)
Definition card_write (click : Click) (todo_id : Z) (w w' : World) : Prop :=
  (∃ k b, db w' = execute (UpdateSubtask k b) (db w)
          ∧ todos_data (session w') = todos_data (session w))
  ∨ (click = DeleteClick
     ∧ db w' = execute (DeleteTodo todo_id) (db w)
     ∧ todos_data (session w') = Some (load_all_todos (db w')))
  ∨ (click = MarkAllDoneClick
     ∧ db w' = execute (UpdateSubtasksOf todo_id true) (db w)
     ∧ todos_data (session w') = todos_data (session w))
  ∨ (click = AddSubtaskClick
     ∧ ∃ text, str_strip text ≠ ""
               ∧ db w' = execute (InsertSubtask todo_id (str_strip text) false) (db w)
               ∧ todos_data (session w') = todos_data (session w)).

(** A run that leaves the text widgets alone, raises only exceptions of
    [allowed], and either writes nothing or makes the one write of a card
    and raises [RerunException]. *)
Definition click_frame (click : Click) (todo_id : Z) (allowed : Exception → Prop)
    {A} (m : Run A) : Prop :=
  ∀ w o w', m w = (o, w') →
    text_state (session w') = text_state (session w)
    ∧ (∀ e, o = Raise e → allowed e)
    ∧ ((db w' = db w ∧ todos_data (session w') = todos_data (session w))
       ∨ (o = Raise RerunException ∧ card_write click todo_id w w')).

(** * Properties *)

(** ** Reading the relation of tasks *)

Lemma omap_from_row (rows : list (Z * TodoRow.t)) :
  omap (λ todo : option Todo.t,
          match todo with
          | Some t => Some (Todo.id t, Some t)
          | None => None
          end) ((λ row, Todo.from_row (Some row)) <$> rows)
  = (λ row, (row.1, Some (Todo.of_columns row.1 row.2))) <$> rows.
Proof.
  induction rows as [|[k r] rows IH]; [done|].
  csimpl. f_equal. exact IH.
Qed.

Lemma load_all_todos_lookup (d : Database) (k : Z) :
  load_all_todos d !! k = (λ r, Some (Todo.of_columns k r)) <$> todo_table d !! k.
Proof.
  unfold load_all_todos, dict_of, select_todos. cbv zeta. rewrite omap_from_row.
  set (h := λ row : Z * TodoRow.t, (row.1, Some (Todo.of_columns row.1 row.2))).
  assert (Hfst : (h <$> map_to_list (todo_table d)).*1 = (map_to_list (todo_table d)).*1).
  { rewrite <- list_fmap_compose. by apply list_fmap_ext. }
  destruct (todo_table d !! k) as [r|] eqn:E; simpl.
  - apply elem_of_list_to_map.
    + rewrite fmap_reverse, Hfst, reverse_Permutation. apply NoDup_fst_map_to_list.
    + apply elem_of_reverse, list_elem_of_fmap. exists (k, r). split; [done|].
      by apply elem_of_map_to_list.
  - apply not_elem_of_list_to_map.
    rewrite fmap_reverse, elem_of_reverse, Hfst.
    intros [[k' r] [-> Hin]]%list_elem_of_fmap.
    apply elem_of_map_to_list in Hin. simpl in E. congruence.
Qed.

Lemma load_todo_lookup (d : Database) (k : Z) :
  load_todo k d = Todo.of_columns k <$> todo_table d !! k.
Proof. unfold load_todo, select_todo. by destruct (todo_table d !! k). Qed.

Lemma load_all_todos_load_todo (d : Database) (k : Z) :
  load_all_todos d !! k = Some <$> load_todo k d.
Proof.
  rewrite load_all_todos_lookup, load_todo_lookup. by destruct (todo_table d !! k).
Qed.

Lemma load_all_todos_size (d : Database) :
  size (load_all_todos d) = size (todo_table d).
Proof.
  rewrite <- !(size_dom (D := gset Z)). f_equal.
  apply set_eq. intros k. rewrite !elem_of_dom, load_all_todos_lookup.
  by rewrite fmap_is_Some.
Qed.


(** ** Widget keys *)

Lemma append_inj_l (p a b : string) : p +:+ a = p +:+ b → a = b.
Proof. induction p as [|c p IH]; simpl; [done|]. intros [= H]. by apply IH. Qed.

Lemma edit_todo_form_key_inj (todo_id : Z) (f1 f2 : string) :
  edit_todo_form_key todo_id f1 = edit_todo_form_key todo_id f2 → f1 = f2.
Proof.
  unfold edit_todo_form_key. intros H.
  by do 3 apply append_inj_l in H.
Qed.

Lemma edit_todo_form_key_ne (todo_id : Z) (f1 f2 : string) :
  f1 ≠ f2 → edit_todo_form_key todo_id f1 ≠ edit_todo_form_key todo_id f2.
Proof. intros Hne Heq. by apply Hne, (edit_todo_form_key_inj todo_id). Qed.

(** ** What the callbacks compute *)

Lemma create_todo_callback_submitted (today : date) (f : NewTodoForm.t) (w : World) :
  NewTodoForm.title f ≠ "" →
  create_todo_callback today (new_todo_form f w)
  = (Return tt,
     let d := execute (InsertTodo (new_todo_data today f)) (db w) in
     let s := session (new_todo_form f w) in
     mkWorld d
       (mkSessionState (text_state s) (date_state s) (flag_state s)
          (Some (load_all_todos d)))
       (toasts w) (page w)).
Proof.
  intros Htitle.
  unfold create_todo_callback, bind, text_attr, date_attr, commit, query, set_todos.
  unfold new_todo_form, with_session, with_db, new_todo_form_key. simpl.
  rewrite lookup_insert_eq.
  destruct (NewTodoForm.title f) as [|c t] eqn:E; [done|].
  simplify_map_eq. unfold new_todo_data. by rewrite E.
Qed.

Lemma update_todo_callback_ready (todo_id : Z) (w : World)
    (title : string) (description status requester : option string)
    (due_at : option date) (todos : gmap Z (option Todo.t)) :
  text_state (session w) !! edit_todo_form_key todo_id "title" = Some (Some title) →
  title ≠ "" →
  text_state (session w) !! edit_todo_form_key todo_id "description" = Some description →
  text_state (session w) !! edit_todo_form_key todo_id "status" = Some status →
  text_state (session w) !! edit_todo_form_key todo_id "requester" = Some requester →
  date_state (session w) !! edit_todo_form_key todo_id "due_date" = Some due_at →
  todos_data (session w) = Some todos →
  update_todo_callback todo_id w
  = (Return tt,
     let d := execute (UpdateTodo todo_id
                         (updated_values title description status requester due_at))
                (db w) in
     mkWorld d
       (mkSessionState (text_state (session w)) (date_state (session w))
          (<[currently_editing_key todo_id := false]> (flag_state (session w)))
          (Some (<[todo_id := load_todo todo_id d]> todos)))
       (toasts w) (page w)).
Proof.
  intros Ht Hne Hd Hs Hr Hdue Htodos.
  unfold update_todo_callback, bind, text_item, date_item.
  rewrite Ht, Hd, Hs, Hr, Hdue.
  destruct title as [|c t]; [done|].
  unfold commit, query, set_todo_item, get_todos, set_todos, set_flag, bind,
    with_session, with_db. simpl.
  by rewrite Htodos.
Qed.

Lemma delete_todo_callback_run (todo_id : Z) (w : World) :
  delete_todo_callback todo_id w
  = (Return tt,
     let d := execute (DeleteTodo todo_id) (db w) in
     mkWorld d
       (mkSessionState (text_state (session w)) (date_state (session w))
          (<[currently_editing_key todo_id := false]> (flag_state (session w)))
          (Some (load_all_todos d)))
       (toasts w) (page w)).
Proof. reflexivity. Qed.

Lemma mark_done_callback_cached (todo_id : Z) (w : World)
    (todos : gmap Z (option Todo.t)) (todo : Todo.t) :
  todos_data (session w) = Some todos →
  todos !! todo_id = Some (Some todo) →
  mark_done_callback todo_id w
  = (Return tt,
     let d := execute (UpdateTodo todo_id [SetDone (negb (Todo.done todo))]) (db w) in
     mkWorld d
       (mkSessionState (text_state (session w)) (date_state (session w))
          (flag_state (session w))
          (Some (<[todo_id := load_todo todo_id d]> todos)))
       (toasts w) (page w)).
Proof.
  intros Htodos Hitem.
  unfold mark_done_callback, get_todo_item, get_todos, bind.
  rewrite Htodos, Hitem. simpl.
  unfold commit, query, set_todo_item, get_todos, set_todos, bind,
    with_session, with_db. simpl.
  by rewrite Htodos.
Qed.

(** ** The cache is read again after a mutation *)

(** C1. A mutation callback (create, update, delete, toggle done) that
    runs from a state it can complete from returns normally, and then the
    cache, for create and delete, is exactly what [load_all_todos] returns
    on the store as the callback left it, and, for update and toggle done,
    holds under the identifier of the task exactly what [load_todo] returns
    for it: the entry is the row read again, not the values submitted. *)
Theorem cache_reread_after_mutation (m : Mutation) (w : World) :
  ready m w →
  ∃ w', run_mutation m w = (Return tt, w') ∧ reread m w'.
Proof.
  destruct m as [today|todo_id|todo_id|todo_id]; simpl.
  - intros (f & w0 & -> & Htitle).
    rewrite create_todo_callback_submitted by done. eexists. split; [done|].
    reflexivity.
  - intros ((title & Ht & Hne) & [description Hd] & [status Hs] & [requester Hr]
            & [due Hdue] & [todos Htodos]).
    erewrite update_todo_callback_ready by done. eexists. split; [done|].
    simpl. eexists. split; [done|]. apply lookup_insert_eq.
  - intros _. rewrite delete_todo_callback_run. eexists. split; [done|].
    reflexivity.
  - intros (todos & todo & Htodos & Hitem).
    erewrite mark_done_callback_cached by done. eexists. split; [done|].
    simpl. eexists. split; [done|]. apply lookup_insert_eq.
Qed.

(** ** Creating a task *)

(** C2. Submitting the new-task form with a non-empty title, in a state
    whose cache mirrors the store, executes exactly one statement, an
    insert, which adds one row; afterwards the cache has exactly one entry
    more, under an identifier it did not hold, and that entry carries the
    submitted title, description, requester, label, priority, status and
    due date, is not done, and was created on the current date. *)
Theorem create_adds_one_task (today : date) (f : NewTodoForm.t) (w : World) :
  in_sync w →
  NewTodoForm.title f ≠ "" →
  ∃ w' todos todos' new_id,
    submit (SubmitNew today f) w = (Return tt, w')
    ∧ (∃ values, executed (db w') = executed (db w) ++ [InsertTodo values])
    ∧ size (todo_table (db w')) = S (size (todo_table (db w)))
    ∧ subtask_table (db w') = subtask_table (db w)
    ∧ todos_data (session w) = Some todos
    ∧ todos_data (session w') = Some todos'
    ∧ size todos' = S (size todos)
    ∧ todos !! new_id = None
    ∧ todos' = <[new_id :=
                   Some (Todo.make new_id (NewTodoForm.title f)
                           (NewTodoForm.description f) (NewTodoForm.label f)
                           (NewTodoForm.requester f) (NewTodoForm.priority f)
                           (NewTodoForm.status f) (Some today)
                           (NewTodoForm.due_date f) false)]> todos.
Proof.
  intros Hsync Htitle. unfold submit.
  rewrite create_todo_callback_submitted by done.
  set (new_id := next_todo_id (todo_table (db w))).
  assert (Hfresh : todo_table (db w) !! new_id = None) by apply next_todo_id_fresh.
  eexists _, (load_all_todos (db w)), _, new_id.
  split; [reflexivity|]. simpl.
  split; [by eexists|].
  split; [by apply map_size_insert_None|].
  split; [done|]. split; [exact Hsync|]. split; [reflexivity|].
  split; [|split].
  - rewrite !load_all_todos_size. simpl. by apply map_size_insert_None.
  - by rewrite load_all_todos_lookup, Hfresh.
  - apply map_eq. intros k. rewrite load_all_todos_lookup. simpl.
    fold new_id. destruct (decide (new_id = k)) as [<-|Hne].
    + by rewrite !lookup_insert_eq.
    + rewrite !lookup_insert_ne by done. by rewrite load_all_todos_lookup.
Qed.

(** ** Editing a task *)

Lemma todo_edit_widget_title (todo_id : Z) (f : EditTodoForm.t) (w : World) :
  text_state (session (todo_edit_widget todo_id f w))
    !! edit_todo_form_key todo_id "title" = Some (Some (EditTodoForm.title f)).
Proof. simpl. apply lookup_insert_eq. Qed.

Lemma todo_edit_widget_description (todo_id : Z) (f : EditTodoForm.t) (w : World) :
  text_state (session (todo_edit_widget todo_id f w))
    !! edit_todo_form_key todo_id "description" = Some (EditTodoForm.description f).
Proof.
  simpl. rewrite lookup_insert_ne by (by apply edit_todo_form_key_ne).
  apply lookup_insert_eq.
Qed.

Lemma todo_edit_widget_other (todo_id : Z) (f : EditTodoForm.t) (w : World)
    (field : string) :
  field ≠ "title" → field ≠ "description" →
  text_state (session (todo_edit_widget todo_id f w))
    !! edit_todo_form_key todo_id field
  = text_state (session w) !! edit_todo_form_key todo_id field.
Proof.
  intros H1 H2. simpl.
  by rewrite !lookup_insert_ne by (apply edit_todo_form_key_ne; congruence).
Qed.

Lemma todo_edit_widget_due_date (todo_id : Z) (f : EditTodoForm.t) (w : World) :
  date_state (session (todo_edit_widget todo_id f w))
    !! edit_todo_form_key todo_id "due_date" = Some (EditTodoForm.due_date f).
Proof. simpl. apply lookup_insert_eq. Qed.

(** The form of [todo_edit_widget] has no status widget, so unless
    something else has put a status under the key of the form,
    [update_todo_callback] raises [KeyError] when it reads it: nothing is
    written, and the world is as the submission left it. *)
Theorem edit_submission_raises (todo_id : Z) (f : EditTodoForm.t) (w : World) :
  text_state (session w) !! edit_todo_form_key todo_id "status" = None →
  submit (SubmitEdit todo_id f) w = (Raise KeyError, todo_edit_widget todo_id f w).
Proof.
  intros Hstatus. unfold submit, update_todo_callback, bind, text_item.
  rewrite todo_edit_widget_title, todo_edit_widget_description.
  rewrite todo_edit_widget_other by done.
  by rewrite Hstatus.
Qed.

(** ** Validation *)

(** C4. A create or update submission whose title is empty aborts before
    any write: whatever the outcome of the callback, the store, with the
    list of statements executed on it, and the cache are as they were. *)
Theorem empty_title_writes_nothing (s : Submission) (w : World) :
  submitted_title s = "" →
  ∃ o w', submit s w = (o, w')
          ∧ db w' = db w
          ∧ todos_data (session w') = todos_data (session w).
Proof.
  destruct s as [today f|todo_id f]; simpl; intros Htitle.
  - unfold create_todo_callback, bind, text_attr.
    unfold new_todo_form at 1. simpl. rewrite lookup_insert_eq, Htitle.
    by eexists _, _.
  - unfold update_todo_callback, bind, text_item, date_item.
    rewrite todo_edit_widget_title, todo_edit_widget_description.
    rewrite todo_edit_widget_other by done.
    destruct (text_state (session w) !! edit_todo_form_key todo_id "status");
      [|by eexists _, _].
    rewrite todo_edit_widget_other by done.
    destruct (text_state (session w) !! edit_todo_form_key todo_id "requester");
      [|by eexists _, _].
    rewrite todo_edit_widget_due_date, Htitle.
    by eexists _, _.
Qed.

(** ** Deleting a task *)



(** ** Toggling done *)

Lemma assign_done_twice (b : bool) (r : TodoRow.t) :
  TodoRow.done r = b →
  assign_all [SetDone b] (assign_all [SetDone (negb b)] r) = r.
Proof. destruct r. simpl. by intros ->. Qed.

(** C6. Toggling done for a task of the cache, in a state whose cache
    mirrors the store, executes exactly one statement: an update that sets
    [done] to the negation of the flag in the cache.  Toggling twice
    executes exactly two such statements and brings the flag, the cache and
    the row back to what they were. *)
Theorem toggle_done_twice (todo_id : Z) (todo : Todo.t) (w : World)
    (todos : gmap Z (option Todo.t)) :
  in_sync w →
  todos_data (session w) = Some todos →
  todos !! todo_id = Some (Some todo) →
  ∃ w1 w2 todos1 todo1,
    run_mutation (ToggleDone todo_id) w = (Return tt, w1)
    ∧ executed (db w1)
      = executed (db w) ++ [UpdateTodo todo_id [SetDone (negb (Todo.done todo))]]
    ∧ todos_data (session w1) = Some todos1
    ∧ todos1 !! todo_id = Some (Some todo1)
    ∧ Todo.done todo1 = negb (Todo.done todo)
    ∧ run_mutation (ToggleDone todo_id) w1 = (Return tt, w2)
    ∧ executed (db w2)
      = executed (db w) ++ [UpdateTodo todo_id [SetDone (negb (Todo.done todo))];
                            UpdateTodo todo_id [SetDone (Todo.done todo)]]
    ∧ todos_data (session w2) = Some todos
    ∧ todo_table (db w2) = todo_table (db w)
    ∧ subtask_table (db w2) = subtask_table (db w).
Proof.
  intros Hsync Htodos Hitem. cbn [run_mutation].
  unfold in_sync in Hsync. rewrite Htodos in Hsync. injection Hsync as ->.
  rewrite load_all_todos_lookup in Hitem.
  destruct (todo_table (db w) !! todo_id) as [r|] eqn:Hrow; [|done].
  simpl in Hitem. injection Hitem as <-.
  assert (Hcache : load_all_todos (db w) !! todo_id
                   = Some (Some (Todo.of_columns todo_id r))).
  { by rewrite load_all_todos_lookup, Hrow. }
  set (b := Todo.done (Todo.of_columns todo_id r)).
  set (r1 := assign_all [SetDone (negb b)] r).
  set (d1 := execute (UpdateTodo todo_id [SetDone (negb b)]) (db w)).
  assert (Hload1 : load_todo todo_id d1 = Some (Todo.of_columns todo_id r1)).
  { rewrite load_todo_lookup. unfold d1. cbn [execute todo_table].
    by rewrite lookup_alter_eq, Hrow. }
  assert (Hdone1 : Todo.done (Todo.of_columns todo_id r1) = negb b).
  { unfold r1. by destruct r. }
  set (d2 := execute (UpdateTodo todo_id [SetDone (negb (negb b))]) d1).
  assert (Htable : todo_table d2 = todo_table (db w)).
  { unfold d2, d1. cbn [execute todo_table].
    apply map_eq. intros k. destruct (decide (todo_id = k)) as [<-|Hne].
    - rewrite !lookup_alter_eq, Hrow. cbn [fmap option_fmap option_map]. f_equal.
      rewrite Bool.negb_involutive. by apply assign_done_twice.
    - by rewrite !lookup_alter_ne by done. }
  eexists _, _, _, (Todo.of_columns todo_id r1).
  split; [by apply mark_done_callback_cached|].
  cbn [db session todos_data]. fold b. fold d1.
  split; [done|]. split; [done|].
  split; [by rewrite lookup_insert_eq, Hload1|].
  split; [done|].
  split.
  { erewrite mark_done_callback_cached; [reflexivity|done|].
    cbn [db session todos_data]. by rewrite lookup_insert_eq, Hload1. }
  cbn [db session todos_data]. rewrite Hdone1. fold d2.
  split.
  { unfold d2, d1. cbn [execute executed]. rewrite <- app_assoc.
    by rewrite Bool.negb_involutive. }
  split.
  { f_equal. apply map_eq. intros k. destruct (decide (todo_id = k)) as [<-|Hne].
    - rewrite lookup_insert_eq, Hcache. f_equal.
      by rewrite load_todo_lookup, Htable, Hrow.
    - by rewrite !lookup_insert_ne by done. }
  split; [exact Htable|done].
Qed.

(** ** The states of a session *)

Lemma frame_ret {A} (a : A) : session_frame (ret a).
Proof. intros w o w' [= <- <-]. done. Qed.

Lemma frame_raise {A} (e : Exception) : session_frame (@raise A e).
Proof. intros w o w' [= <- <-]. done. Qed.

Lemma frame_bind {A B} (m : Run A) (k : A → Run B) :
  session_frame m → (∀ a, session_frame (k a)) → session_frame (bind m k).
Proof.
  intros Hm Hk w o w'. unfold bind.
  destruct (m w) as [[a|e] w1] eqn:E; intros H.
  - destruct (Hm _ _ _ E) as (H1 & H2 & H3).
    destruct (Hk a _ _ _ H) as (K1 & K2 & K3).
    split_and!; congruence.
  - injection H as <- <-. by apply (Hm _ _ _ E).
Qed.

Lemma frame_emit (e : Element) : session_frame (emit e).
Proof. intros w o w' [= <- <-]. done. Qed.

Lemma frame_toast (msg : string) : session_frame (toast msg).
Proof. intros w o w' [= <- <-]. done. Qed.

Lemma frame_query {A} (f : Database → A) : session_frame (query f).
Proof. intros w o w' [= <- <-]. done. Qed.

Lemma frame_set_flag (key : string) (b : bool) : session_frame (set_flag key b).
Proof. intros w o w' [= <- <-]. done. Qed.

Lemma frame_commit (stmt : Statement) :
  is_write_to_todo stmt = false → session_frame (commit stmt).
Proof. intros Hs w o w' [= <- <-]. by destruct stmt. Qed.

Lemma frame_attr_strftime (due_date : option date) (format : string) :
  session_frame (attr_strftime due_date format).
Proof. destruct due_date; [apply frame_ret|apply frame_raise]. Qed.

Lemma frame_for_each {A} (f : A → Run unit) (l : list A) :
  (∀ x, session_frame (f x)) → session_frame (for_each f l).
Proof.
  intros Hf. induction l as [|x l IH]; [apply frame_ret|].
  apply frame_bind; [apply Hf|done].
Qed.

Lemma frame_subtask_checkbox (sub : Subtask.t) : session_frame (subtask_checkbox sub).
Proof.
  intros w o w'. unfold subtask_checkbox.
  match goal with
  | |- ?m ?w1 = _ → _ =>
      intros H; assert (Hm : session_frame m); [|exact (Hm w1 o w' H)]
  end.
  apply frame_bind; [apply frame_emit|]. intros _.
  destruct (negb _); [|apply frame_ret].
  apply frame_bind; [by apply frame_commit|]. intros _. apply frame_raise.
Qed.

Lemma frame_generate_gcal_link (title : string) (description : option string)
    (due_date : option date) :
  session_frame (generate_gcal_link title description due_date).
Proof.
  unfold generate_gcal_link.
  apply frame_bind; [apply frame_attr_strftime|]. intros start.
  apply frame_bind; [apply frame_attr_strftime|]. intros end_.
  apply frame_ret.
Qed.

Lemma frame_todo_card (todo_item : Todo.t) : session_frame (todo_card todo_item).
Proof.
  unfold todo_card.
  repeat first
    [ apply frame_emit | apply frame_ret | apply frame_query
    | apply frame_attr_strftime | apply frame_generate_gcal_link
    | apply frame_for_each; intros ?; apply frame_subtask_checkbox
    | apply frame_bind; [|intros ?]
    | match goal with |- session_frame (match ?x with _ => _ end) => destruct x end
    | match goal with |- session_frame (if ?x then _ else _) => destruct x end ].
Qed.

Lemma length_append (a b : string) :
  String.length (a +:+ b) = (String.length a + String.length b)%nat.
Proof.
  induction a as [|x a IH]; [done|].
  change (S (String.length (a +:+ b)) = S (String.length a + String.length b)).
  by rewrite IH.
Qed.

Lemma append_suffix (a a' b b' : string) :
  a +:+ b = a' +:+ b' → (String.length b ≤ String.length b')%nat →
  ∃ c, b' = c +:+ b.
Proof.
  revert a'. induction a as [|x a IH]; intros a' Heq Hlen.
  - change (b = a' +:+ b') in Heq. subst b. destruct a' as [|y a'].
    + by exists "".
    + exfalso. rewrite length_append in Hlen.
      cbn [String.length] in Hlen. lia.
  - destruct a' as [|y a'].
    + change (String x (a +:+ b) = b') in Heq. by exists (String x a).
    + change (String x (a +:+ b) = String y (a' +:+ b')) in Heq.
      injection Heq as _ Heq. by apply (IH a').
Qed.

Lemma edit_key_title_ne_status (i j : Z) :
  edit_todo_form_key i "title" ≠ edit_todo_form_key j "status".
Proof.
  unfold edit_todo_form_key. intros H. apply append_inj_l in H.
  change (pretty i +:+ "__title" = pretty j +:+ "__status") in H.
  apply append_suffix in H as [c Hc]; [|cbn; lia].
  pose proof (f_equal String.length Hc) as Hl.
  rewrite length_append in Hl. cbn in Hl.
  destruct c as [|x [|y c]]; cbn in Hl; try lia.
  cbv in Hc. discriminate Hc.
Qed.

Lemma edit_key_description_ne_status (i j : Z) :
  edit_todo_form_key i "description" ≠ edit_todo_form_key j "status".
Proof.
  unfold edit_todo_form_key. intros H. apply append_inj_l in H.
  change (pretty i +:+ "__description" = pretty j +:+ "__status") in H.
  symmetry in H. apply append_suffix in H as [c Hc]; [|cbn; lia].
  pose proof (f_equal String.length Hc) as Hl.
  rewrite length_append in Hl. cbn in Hl.
  destruct c as [|x1 [|x2 [|x3 [|x4 [|x5 [|x6 c]]]]]]; cbn in Hl; try lia.
  cbv in Hc. discriminate Hc.
Qed.

Lemma todo_edit_widget_no_status (todo_id : Z) (f : EditTodoForm.t) (w : World) :
  (∀ k, text_state (session w) !! edit_todo_form_key k "status" = None) →
  ∀ k, text_state (session (todo_edit_widget todo_id f w))
         !! edit_todo_form_key k "status" = None.
Proof.
  intros H k. simpl.
  rewrite lookup_insert_ne by apply edit_key_title_ne_status.
  rewrite lookup_insert_ne by apply edit_key_description_ne_status.
  apply H.
Qed.

Lemma new_todo_form_no_status (f : NewTodoForm.t) (w : World) :
  (∀ k, text_state (session w) !! edit_todo_form_key k "status" = None) →
  ∀ k, text_state (session (new_todo_form f w))
         !! edit_todo_form_key k "status" = None.
Proof.
  intros H k. simpl. by rewrite !lookup_insert_ne by done.
Qed.

Lemma load_all_todos_ext (d d' : Database) :
  todo_table d' = todo_table d → load_all_todos d' = load_all_todos d.
Proof.
  intros H. apply map_eq. intros k. by rewrite !load_all_todos_lookup, H.
Qed.

Lemma load_all_todos_update (d : Database) (todo_id : Z) (values : list Assignment) :
  is_Some (todo_table d !! todo_id) →
  <[todo_id := load_todo todo_id (execute (UpdateTodo todo_id values) d)]>
    (load_all_todos d)
  = load_all_todos (execute (UpdateTodo todo_id values) d).
Proof.
  intros [r Hr]. apply map_eq. intros k.
  rewrite load_all_todos_lookup, load_todo_lookup. cbn [execute todo_table].
  destruct (decide (todo_id = k)) as [<-|Hne].
  - rewrite lookup_insert_eq, lookup_alter_eq, Hr. done.
  - rewrite lookup_insert_ne, lookup_alter_ne by done. apply load_all_todos_lookup.
Qed.

Lemma session_frame_invariant {A} (m : Run A) (w : World) o w' :
  session_frame m → m w = (o, w') → session_invariant w → session_invariant w'.
Proof.
  intros Hm Hrun [Hstatus Hsync]. destruct (Hm _ _ _ Hrun) as (Ht & Hc & Hx).
  split.
  - intros k. rewrite Hx. apply Hstatus.
  - unfold in_sync in *. rewrite Hc. intros HS. rewrite (Hsync HS).
    f_equal. symmetry. by apply load_all_todos_ext.
Qed.

Lemma create_todo_callback_empty (today : date) (f : NewTodoForm.t) (w : World) :
  NewTodoForm.title f = "" →
  create_todo_callback today (new_todo_form f w)
  = toast "Title empty, not adding todo" (new_todo_form f w).
Proof.
  intros Htitle. unfold create_todo_callback, bind, text_attr.
  unfold new_todo_form at 1. cbn [session with_session text_state].
  by rewrite lookup_insert_eq, Htitle.
Qed.

(** Every state of a session satisfies the invariant. *)
Theorem reachable_invariant (w : World) : reachable w → session_invariant w.
Proof.
  induction 1 as [d|e w o w' Hreach [Hstatus Hsync] Hrun].
  { split; [done|]. by intros [? ?]. }
  destruct e as [|[today f|todo_id f]|todo_id f|todo_id|todo_id|todo_id
                 |todo_item|todo_id title|todo_id]; cbn [handle] in Hrun.
  - unfold load_session_todos in Hrun.
    destruct (todos_data (session w)) eqn:E.
    + injection Hrun as <- <-. split; [done|]. intros _. by apply Hsync.
    + injection Hrun as <- <-. split; [done|]. done.
  - cbn [submit] in Hrun.
    pose proof (new_todo_form_no_status f w Hstatus) as Hstatus'.
    destruct (decide (NewTodoForm.title f = "")) as [Hempty|Hne].
    + rewrite create_todo_callback_empty in Hrun by done.
      injection Hrun as <- <-. split; [exact Hstatus'|exact Hsync].
    + rewrite create_todo_callback_submitted in Hrun by done.
      injection Hrun as <- <-. split; [exact Hstatus'|done].
  - rewrite edit_submission_raises in Hrun by apply Hstatus.
    injection Hrun as <- <-.
    split; [by apply todo_edit_widget_no_status|exact Hsync].
  - injection Hrun as <- <-.
    split; [by apply todo_edit_widget_no_status|exact Hsync].
  - injection Hrun as <- <-. by split.
  - destruct (todos_data (session w)) as [todos|] eqn:E.
    2: { unfold mark_done_callback, get_todo_item, get_todos, bind in Hrun.
         rewrite E in Hrun. injection Hrun as <- <-. split; [done|by rewrite E]. }
    destruct (todos !! todo_id) as [[todo|]|] eqn:Hitem.
    + rewrite (mark_done_callback_cached _ _ _ _ E Hitem) in Hrun.
      injection Hrun as <- <-. split; [done|]. intros _.
      specialize (Hsync (mk_is_Some _ _ eq_refl)). unfold in_sync in *.
      rewrite E in Hsync. injection Hsync as ->.
      cbn [db session todos_data]. f_equal. apply load_all_todos_update.
      rewrite load_all_todos_lookup in Hitem.
      by destruct (todo_table (db w) !! todo_id).
    + unfold mark_done_callback, get_todo_item, get_todos, bind in Hrun.
      rewrite E, Hitem in Hrun. injection Hrun as <- <-.
      split; [done|]. rewrite E. exact Hsync.
    + unfold mark_done_callback, get_todo_item, get_todos, bind in Hrun.
      rewrite E, Hitem in Hrun. injection Hrun as <- <-.
      split; [done|]. rewrite E. exact Hsync.
  - rewrite delete_todo_callback_run in Hrun. injection Hrun as <- <-. by split.
  - eapply session_frame_invariant; [|exact Hrun|done]. apply frame_todo_card.
  - eapply session_frame_invariant; [|exact Hrun|done]. by apply frame_commit.
  - eapply session_frame_invariant; [|exact Hrun|done]. by apply frame_commit.
Qed.

(** X2. In every state of a session (the script run, forms submitted,
    buttons clicked, cards rendered, while nothing else writes to the
    store) the cache, once loaded, is exactly what [load_all_todos] returns
    on the store: every callback leaves the cache in step with its own
    writes. *)
Corollary reachable_in_sync (w : World) :
  reachable w → is_Some (todos_data (session w)) → in_sync w.
Proof. intros H. by apply reachable_invariant. Qed.

(** C3 (what the code does at a submission of the edit form). In every
    state of a session, submitting the edit form of a task makes
    [update_todo_callback] raise [KeyError] where it reads the status, which
    no widget of the form provides: no update is executed, and the world is
    as the submission left it, the old title included. *)
Corollary reachable_edit_raises (w : World) (todo_id : Z) (f : EditTodoForm.t) :
  reachable w →
  submit (SubmitEdit todo_id f) w = (Raise KeyError, todo_edit_widget todo_id f w).
Proof. intros H. apply edit_submission_raises. by apply reachable_invariant. Qed.

(** ** Filtering *)

Lemma py_in_spec (x : option string) (selected : list string) :
  py_in x selected = true ↔ ∃ s, x = Some s ∧ s ∈ selected.
Proof.
  induction selected as [|o rest IH]; simpl.
  - split; [done|]. intros (s & _ & Hin). by apply elem_of_nil in Hin.
  - rewrite orb_true_iff, IH. split.
    + intros [Heq|(s & -> & Hin)].
      * destruct x as [s|]; [|done]. apply String.eqb_eq in Heq as ->.
        exists o. split; [done|]. apply list_elem_of_here.
      * exists s. split; [done|]. by apply list_elem_of_further.
    + intros (s & -> & Hin). apply elem_of_cons in Hin as [->|Hin].
      * left. apply String.eqb_refl.
      * right. by exists s.
Qed.

Lemma keep_todo_spec (fl fp fs : list string) (hide_done : bool) (t : Todo.t) :
  keep_todo fl fp fs hide_done t = true
  ↔ (∃ s, Todo.label t = Some s ∧ s ∈ fl)
    ∧ (∃ s, Todo.priority t = Some s ∧ s ∈ fp)
    ∧ (∃ s, Todo.status t = Some s ∧ s ∈ fs)
    ∧ (hide_done = true → Todo.done t = false).
Proof.
  unfold keep_todo. rewrite !andb_true_iff, !py_in_spec, orb_true_iff, !negb_true_iff.
  split.
  - intros [[[Hl Hp] Hs] Hd]. split_and!; try done.
    intros ->. by destruct Hd.
  - intros (Hl & Hp & Hs & Hd). split_and!; try done.
    destruct hide_done; [right; by apply Hd|by left].
Qed.

Lemma elem_of_filtered_todos (todos : list Todo.t) (fl fp fs : list string)
    (hide_done : bool) (t : Todo.t) :
  t ∈ filtered_todos todos fl fp fs hide_done
  ↔ t ∈ todos
    ∧ (∃ s, Todo.label t = Some s ∧ s ∈ fl)
    ∧ (∃ s, Todo.priority t = Some s ∧ s ∈ fp)
    ∧ (∃ s, Todo.status t = Some s ∧ s ∈ fs)
    ∧ (hide_done = true → Todo.done t = false).
Proof.
  unfold filtered_todos.
  rewrite !list_elem_of_In, filter_In, keep_todo_spec. tauto.
Qed.

(** C7. Whatever the tasks and whatever the selected labels, priorities
    and statuses and the hide-done flag, the filtered sequence holds
    exactly the tasks of the collection whose label, priority and status
    are each one of the selected values and which, when the flag is set,
    are not done; it holds them in the order of the collection, each as
    often as the collection does.  This covers the collections whose
    fields are drawn from the allowed values. *)
Theorem filtered_todos_exact (todos : list Todo.t) (fl fp fs : list string)
    (hide_done : bool) :
  (∀ t, t ∈ filtered_todos todos fl fp fs hide_done
        ↔ t ∈ todos
          ∧ (∃ s, Todo.label t = Some s ∧ s ∈ fl)
          ∧ (∃ s, Todo.priority t = Some s ∧ s ∈ fp)
          ∧ (∃ s, Todo.status t = Some s ∧ s ∈ fs)
          ∧ (hide_done = true → Todo.done t = false))
  ∧ sublist (filtered_todos todos fl fp fs hide_done) todos.
Proof.
  split; [intros t; apply elem_of_filtered_todos|].
  unfold filtered_todos. induction todos as [|t todos IH]; simpl; [done|].
  destruct (keep_todo _ _ _ _ t); by constructor.
Qed.

(** C9. A task whose label, priority or status is absent is not in the
    filtered sequence, whatever is selected; in particular it is not there
    when every option of every filter is selected and done tasks are
    shown. *)
Theorem absent_field_filtered_out (todos : list Todo.t) (fl fp fs : list string)
    (hide_done : bool) (t : Todo.t) :
  Todo.label t = None ∨ Todo.priority t = None ∨ Todo.status t = None →
  (t ∉ filtered_todos todos fl fp fs hide_done)
  ∧ (t ∉ filtered_todos todos label_options priority_options status_options false).
Proof.
  intros Habsent.
  assert (H : ∀ fl fp fs hide_done, t ∉ filtered_todos todos fl fp fs hide_done).
  { clear fl fp fs hide_done. intros fl fp fs hide_done.
    intros (_ & (sl & Hl & _) & (sp & Hp & _) & (ss & Hs & _) & _)%elem_of_filtered_todos.
    destruct Habsent as [?|[?|?]]; congruence. }
  split; apply H.
Qed.

(** ** Sorting *)

Lemma date_bounds (d : date) : 1 ≤ month d ≤ 12 ∧ 1 ≤ day d ≤ 31 ∧ 1 ≤ year d ≤ 9999.
Proof.
  destruct d as [y m dd Hv]. simpl. unfold valid_date in Hv.
  repeat (apply andb_true_iff in Hv as [Hv ?]).
  assert (days_in_month y m ≤ 31).
  { unfold days_in_month. repeat case_match; lia. }
  lia.
Qed.

Lemma date_leb_code (a b : date) : date_leb a b = true ↔ date_code a ≤ date_code b.
Proof.
  pose proof (date_bounds a). pose proof (date_bounds b).
  unfold date_leb, date_ltb, date_eqb, date_code.
  rewrite !orb_true_iff, !andb_true_iff, !orb_true_iff, !andb_true_iff.
  rewrite !Z.ltb_lt, !Z.eqb_eq. lia.
Qed.

Lemma date_ltb_code (a b : date) : date_ltb a b = true ↔ date_code a < date_code b.
Proof.
  pose proof (date_bounds a). pose proof (date_bounds b).
  unfold date_ltb, date_code.
  rewrite !orb_true_iff, !andb_true_iff, !orb_true_iff, !andb_true_iff.
  rewrite !Z.ltb_lt, !Z.eqb_eq. lia.
Qed.

Section insertion.
Context (before : date → date → bool) (key : Todo.t → date) (rank : date → Z).
Hypothesis before_rank : ∀ a b, before a b = true ↔ rank a ≤ rank b.

Lemma insert_by_Permutation (x : Todo.t) (l : list Todo.t) :
  insert_by before key x l ≡ₚ x :: l.
Proof.
  induction l as [|y l IH]; simpl; [done|].
  destruct (before (key x) (key y)); [done|].
  rewrite IH. apply Permutation_swap.
Qed.

Lemma insert_by_sorted (x : Todo.t) (l : list Todo.t) :
  StronglySorted (ordered_by rank key) l → StronglySorted (ordered_by rank key) (insert_by before key x l).
Proof.
  induction l as [|y l IH]; simpl; intros Hl.
  - repeat constructor.
  - apply StronglySorted_cons in Hl as [Hy Hl].
    destruct (before (key x) (key y)) eqn:E.
    + apply before_rank in E.
      apply StronglySorted_cons. split; [|by apply StronglySorted_cons].
      constructor; [done|].
      eapply Forall_impl; [exact Hy|]. unfold ordered_by. intros z Hz. simpl in *. lia.
    + assert (rank (key y) ≤ rank (key x)) as Hyx.
      { destruct (Z.le_gt_cases (rank (key x)) (rank (key y))) as [Hle|Hgt]; [|lia].
        apply before_rank in Hle. congruence. }
      apply StronglySorted_cons. split; [|by apply IH].
      rewrite insert_by_Permutation. by constructor.
Qed.

Lemma foldr_insert_by_sorted (l : list Todo.t) :
  StronglySorted (ordered_by rank key) (foldr (insert_by before key) [] l).
Proof.
  induction l as [|x l IH]; simpl; [constructor|by apply insert_by_sorted].
Qed.

Lemma foldr_insert_by_Permutation (l : list Todo.t) :
  foldr (insert_by before key) [] l ≡ₚ l.
Proof.
  induction l as [|x l IH]; simpl; [done|].
  by rewrite insert_by_Permutation, IH.
Qed.

Lemma sorted_lookup_rank (l : list Todo.t) (i j : nat) (a b : Todo.t) :
  StronglySorted (ordered_by rank key) l → l !! i = Some a → l !! j = Some b → (i < j)%nat →
  rank (key a) ≤ rank (key b).
Proof.
  intros Hl. revert i j. induction Hl as [|x l Hl IH Hx]; intros i j Hi Hj Hlt.
  - by rewrite lookup_nil in Hi.
  - destruct j as [|j]; [lia|]. destruct i as [|i]; simpl in *.
    + injection Hi as <-. rewrite Forall_forall in Hx.
      apply Hx. by eapply list_elem_of_lookup_2.
    + apply (IH i j); [done..|lia].
Qed.
End insertion.

Lemma list_sort_ascending (key : Todo.t → date) (l : list Todo.t) (i j : nat)
    (a b : Todo.t) :
  list_sort key false l !! i = Some a → list_sort key false l !! j = Some b →
  (i < j)%nat → date_code (key a) ≤ date_code (key b).
Proof.
  apply (sorted_lookup_rank key date_code).
  apply (foldr_insert_by_sorted date_leb key date_code), date_leb_code.
Qed.

Lemma list_sort_descending (key : Todo.t → date) (l : list Todo.t) (i j : nat)
    (a b : Todo.t) :
  list_sort key true l !! i = Some a → list_sort key true l !! j = Some b →
  (i < j)%nat → date_code (key b) ≤ date_code (key a).
Proof.
  intros Hi Hj Hlt.
  pose proof (sorted_lookup_rank key (λ d, - date_code d)
                (list_sort key true l) i j a b) as H. simpl in H.
  cut (- date_code (key a) ≤ - date_code (key b)); [lia|].
  apply H; [|done..].
  apply (foldr_insert_by_sorted (λ x y, date_leb y x) key (λ d, - date_code d)).
  intros x y. rewrite date_leb_code. lia.
Qed.

Lemma list_sort_Permutation (key : Todo.t → date) (reverse : bool) (l : list Todo.t) :
  list_sort key reverse l ≡ₚ l.
Proof. apply foldr_insert_by_Permutation. Qed.

Lemma date_eqb_code (a b : date) : date_eqb a b = true → date_code a = date_code b.
Proof.
  unfold date_eqb, date_code. rewrite !andb_true_iff, !Z.eqb_eq.
  intros [[-> ->] ->]. done.
Qed.

Lemma insert_by_filter (before : date → date → bool) (key : Todo.t → date)
    (P : Todo.t → bool) (x : Todo.t) (l : list Todo.t) :
  (∀ a b, P a = true → P b = true → before (key a) (key b) = true) →
  List.filter P (insert_by before key x l) = List.filter P (x :: l).
Proof.
  intros Hclass. induction l as [|y l IH]; [done|]. cbn [insert_by].
  destruct (before (key x) (key y)) eqn:E; [done|].
  cbn [List.filter] in *. rewrite IH.
  destruct (P x) eqn:Hx, (P y) eqn:Hy; try done.
  rewrite (Hclass x y Hx Hy) in E. discriminate E.
Qed.

(** The sort is stable: the tasks that have one and the same key come out
    in the order they went in. *)
Lemma list_sort_stable (key : Todo.t → date) (reverse : bool) (k : date)
    (l : list Todo.t) :
  List.filter (λ t, date_eqb (key t) k) (list_sort key reverse l)
  = List.filter (λ t, date_eqb (key t) k) l.
Proof.
  unfold list_sort. induction l as [|x l IH]; [done|]. cbn [foldr].
  rewrite insert_by_filter.
  - cbn [List.filter]. by rewrite IH.
  - intros a b Ha Hb. apply date_eqb_code in Ha, Hb.
    destruct reverse; apply date_leb_code; lia.
Qed.

Lemma undated_or_due_max_key (t : Todo.t) :
  undated_or_due_max t = date_eqb (sort_key by_due_at t) date_max.
Proof.
  unfold undated_or_due_max, sort_key. cbn [getattr].
  by destruct (Todo.due_at t).
Qed.

Lemma filter_undated_or_due_max (l : list Todo.t) :
  List.filter undated_or_due_max l
  = List.filter (λ t, date_eqb (sort_key by_due_at t) date_max) l.
Proof. apply filter_ext. intros t. apply undated_or_due_max_key. Qed.

(** C8, as the code has it. Sorting by due date keeps every task. In
    ascending order every task with no due date comes after every task
    whose due date is earlier than [date.max], and in descending order
    before every such task. In both orders the tasks that have no due date
    or are due on [date.max], which all have the key [date.max], keep the
    order they had in the input among themselves. *)
Theorem undated_tasks_sort_as_latest (l : list Todo.t) :
  sorted_todos by_due_at "Ascending" l ≡ₚ l
  ∧ sorted_todos by_due_at "Descending" l ≡ₚ l
  ∧ (∀ (a b : Todo.t) (d : date) (i j : nat),
       Todo.due_at a = None → Todo.due_at b = Some d → date_ltb d date_max = true →
       sorted_todos by_due_at "Ascending" l !! i = Some a →
       sorted_todos by_due_at "Ascending" l !! j = Some b → (j < i)%nat)
  ∧ (∀ (a b : Todo.t) (d : date) (i j : nat),
       Todo.due_at a = None → Todo.due_at b = Some d → date_ltb d date_max = true →
       sorted_todos by_due_at "Descending" l !! i = Some a →
       sorted_todos by_due_at "Descending" l !! j = Some b → (i < j)%nat)
  ∧ List.filter undated_or_due_max (sorted_todos by_due_at "Ascending" l)
    = List.filter undated_or_due_max l
  ∧ List.filter undated_or_due_max (sorted_todos by_due_at "Descending" l)
    = List.filter undated_or_due_max l.
Proof.
  assert (Hkeys : ∀ (a b : Todo.t) (d : date),
            Todo.due_at a = None → Todo.due_at b = Some d →
            date_ltb d date_max = true →
            a ≠ b
            ∧ date_code (sort_key by_due_at b) < date_code (sort_key by_due_at a)).
  { intros a b d Ha Hb Hlt. apply date_ltb_code in Hlt. split; [congruence|].
    unfold sort_key. cbn [getattr]. by rewrite Ha, Hb. }
  unfold sorted_todos. cbn [String.eqb Ascii.eqb Bool.eqb andb].
  split; [apply list_sort_Permutation|]. split; [apply list_sort_Permutation|].
  split; [|split; [|split]].
  - intros a b d i j Ha Hb Hlt Hi Hj.
    destruct (Hkeys a b d Ha Hb Hlt) as [Hab Hk].
    destruct (lt_eq_lt_dec i j) as [[Hij| ->]|Hij]; [|congruence|done].
    pose proof (list_sort_ascending _ _ _ _ _ _ Hi Hj Hij) as H. lia.
  - intros a b d i j Ha Hb Hlt Hi Hj.
    destruct (Hkeys a b d Ha Hb Hlt) as [Hab Hk].
    destruct (lt_eq_lt_dec i j) as [[Hij| ->]|Hij]; [done|congruence|].
    pose proof (list_sort_descending _ _ _ _ _ _ Hj Hi Hij) as H. lia.
  - rewrite !filter_undated_or_due_max. apply list_sort_stable.
  - rewrite !filter_undated_or_due_max. apply list_sort_stable.
Qed.

(** ** The card *)

(** C10. The card of a task with no due date cannot be rendered: the run
    puts the title, the meta line and the description on the page and then
    raises [AttributeError], where the caption of the due date calls
    [strftime] on [None]; the store and the session state are untouched.
    The generator of the calendar link, given no due date, raises the same
    error at its own call of [strftime]. *)
Theorem todo_card_needs_due_date (todo_item : Todo.t) (w : World) :
  Todo.due_at todo_item = None →
  (∃ meta,
     todo_card todo_item w
     = (Raise AttributeError,
        mkWorld (db w) (session w) (toasts w)
          (page w
           ++ [Subheader (strike (Todo.done todo_item) (Todo.title todo_item));
               Markdown meta;
               Markdown (strike (Todo.done todo_item)
                           (text_or (Todo.description todo_item)
                              ":grey[*No description*]"))])))
  ∧ generate_gcal_link (Todo.title todo_item) (Todo.description todo_item)
      (Todo.due_at todo_item) w
    = (Raise AttributeError, w).
Proof.
  intros Hdue. split.
  - unfold todo_card. rewrite Hdue. unfold bind, emit, attr_strftime, raise.
    cbn [db session toasts page]. rewrite <- !app_assoc. by eexists.
  - unfold generate_gcal_link. by rewrite Hdue.
Qed.

(** ** What the update statement writes *)

(** The statement of [update_todo_callback] sets the title, description,
    status, requester and due date of the row, and leaves its label,
    priority, creation date and done flag as they were. *)
Lemma updated_values_row (title : string) (description status requester : option string)
    (due_at : option date) (r : TodoRow.t) :
  assign_all (updated_values title description status requester due_at) r
  = TodoRow.make title description (TodoRow.label r) (TodoRow.priority r) status
      requester (TodoRow.created_at r) due_at (TodoRow.done r).
Proof. by destruct r. Qed.

(** * Further properties of the code *)

(** ** Reading tasks *)

(** X1. [load_all_todos] has exactly one entry for each row of the relation
    of tasks, under the key of the row; the entry is never [None], it is
    the task [load_todo] returns for that key, and its [id] is the key. *)
Theorem load_all_todos_entries (d : Database) (k : Z) :
  load_all_todos d !! k = Some <$> load_todo k d
  ∧ (is_Some (load_all_todos d !! k) ↔ is_Some (todo_table d !! k))
  ∧ load_all_todos d !! k ≠ Some None
  ∧ (∀ t, load_all_todos d !! k = Some (Some t) → Todo.id t = k)
  ∧ size (load_all_todos d) = size (todo_table d).
Proof.
  split_and!.
  - apply load_all_todos_load_todo.
  - by rewrite load_all_todos_lookup, fmap_is_Some.
  - rewrite load_all_todos_lookup. by destruct (todo_table d !! k).
  - intros t. rewrite load_all_todos_lookup.
    destruct (todo_table d !! k); [|done]. by intros [= <-].
  - apply load_all_todos_size.
Qed.

(** ** The create callback on any session state *)

(** X3. Whatever the session state, [create_todo_callback] does one of three
    things: it raises [AttributeError] for a widget key that is missing and
    changes nothing; it returns after the toast for a title that is empty
    or [None] and changes nothing else; or it executes exactly one insert,
    which adds one row, and reloads the cache from the store. It never
    raises after it has written. *)
Theorem create_todo_callback_outcomes (today : date) (w : World) o w' :
  create_todo_callback today w = (o, w') →
  (o = Raise AttributeError ∧ w' = w)
  ∨ (o = Return tt
     ∧ w' = mkWorld (db w) (session w)
              (toasts w ++ ["Title empty, not adding todo"]) (page w))
  ∨ (o = Return tt
     ∧ (∃ values, executed (db w') = executed (db w) ++ [InsertTodo values])
     ∧ size (todo_table (db w')) = S (size (todo_table (db w)))
     ∧ subtask_table (db w') = subtask_table (db w)
     ∧ in_sync w').
Proof.
  unfold create_todo_callback, bind, text_attr, date_attr. intros Hrun.
  destruct (text_state (session w) !! new_todo_form_key "title") as [title|];
    [|left; by injection Hrun as <- <-].
  destruct title as [[|c t]|];
    [right; left; by injection Hrun as <- <-| |right; left; by injection Hrun as <- <-].
  cbn beta iota in Hrun.
  destruct (text_state (session w) !! new_todo_form_key "description");
    [|left; by injection Hrun as <- <-].
  destruct (text_state (session w) !! new_todo_form_key "requester");
    [|left; by injection Hrun as <- <-].
  destruct (text_state (session w) !! new_todo_form_key "label");
    [|left; by injection Hrun as <- <-].
  destruct (text_state (session w) !! new_todo_form_key "priority");
    [|left; by injection Hrun as <- <-].
  destruct (text_state (session w) !! new_todo_form_key "status");
    [|left; by injection Hrun as <- <-].
  destruct (date_state (session w) !! new_todo_form_key "due_date");
    [|left; by injection Hrun as <- <-].
  injection Hrun as <- <-. right. right.
  split; [done|]. cbn [db with_db execute executed todo_table subtask_table].
  split; [by eexists|]. split; [|done].
  apply map_size_insert_None, next_todo_id_fresh.
Qed.

(** ** The done toggle on a cache that does not hold the task *)

(** X4. When the cache holds no task under the identifier,
    [mark_done_callback] raises and changes nothing: [KeyError] when the
    cache is not loaded or has no entry for the identifier,
    [AttributeError] when the entry is [None]. *)
Theorem mark_done_callback_raises (todo_id : Z) (w : World) :
  (∀ todos todo, todos_data (session w) = Some todos →
                 todos !! todo_id ≠ Some (Some todo)) →
  mark_done_callback todo_id w
  = (Raise (match todos_data (session w) ≫= (λ todos, todos !! todo_id) with
            | Some None => AttributeError
            | _ => KeyError
            end), w).
Proof.
  intros Hno. unfold mark_done_callback, get_todo_item, get_todos, bind.
  destruct (todos_data (session w)) as [todos|] eqn:E; [|done].
  cbn [mbind option_bind]. specialize (Hno todos).
  destruct (todos !! todo_id) as [[todo|]|]; [|done..].
  by destruct (Hno todo).
Qed.

(** X5. Toggling done for a task that the cache holds but whose row is no
    longer in the store executes the update, which changes no row, and
    puts [None] in the cache under the identifier; the next toggle of the
    same task raises [AttributeError] and changes nothing. *)
Theorem mark_done_callback_row_gone (todo_id : Z) (todo : Todo.t) (w : World)
    (todos : gmap Z (option Todo.t)) :
  todos_data (session w) = Some todos →
  todos !! todo_id = Some (Some todo) →
  todo_table (db w) !! todo_id = None →
  ∃ w1,
    mark_done_callback todo_id w = (Return tt, w1)
    ∧ executed (db w1)
      = executed (db w) ++ [UpdateTodo todo_id [SetDone (negb (Todo.done todo))]]
    ∧ todo_table (db w1) = todo_table (db w)
    ∧ todos_data (session w1) = Some (<[todo_id := None]> todos)
    ∧ mark_done_callback todo_id w1 = (Raise AttributeError, w1).
Proof.
  intros Htodos Hitem Hrow.
  rewrite (mark_done_callback_cached _ _ _ _ Htodos Hitem).
  eexists. split; [reflexivity|]. cbn [db session todos_data].
  assert (Htable : todo_table (execute (UpdateTodo todo_id
                                          [SetDone (negb (Todo.done todo))]) (db w))
                   = todo_table (db w)).
  { cbn [execute todo_table]. apply map_eq. intros k.
    destruct (decide (todo_id = k)) as [<-|Hne].
    - by rewrite lookup_alter_eq, Hrow.
    - by rewrite lookup_alter_ne. }
  assert (Hload : load_todo todo_id (execute (UpdateTodo todo_id
                                               [SetDone (negb (Todo.done todo))]) (db w))
                  = None).
  { by rewrite load_todo_lookup, Htable, Hrow. }
  rewrite Hload. split; [done|]. split; [done|]. split; [done|].
  unfold mark_done_callback, get_todo_item, get_todos, bind.
  cbn [session todos_data]. by rewrite lookup_insert_eq.
Qed.

(** ** The update callback on any session state *)

Lemma alter_lookup_insert {V} (f : V → V) (k : Z) (v : V) (m : gmap Z V) :
  m !! k = Some v → alter f k m = <[k := f v]> m.
Proof.
  intros Hk. apply map_eq. intros j. destruct (decide (k = j)) as [<-|Hne].
  - by rewrite lookup_alter_eq, lookup_insert_eq, Hk.
  - by rewrite lookup_alter_ne, lookup_insert_ne.
Qed.

(** X6. Whatever the session state, [update_todo_callback] does one of
    these: it raises [KeyError] for a form key that is missing and changes
    nothing; for a title that is empty or [None] it returns after the toast
    with the task left in editing mode and nothing written; or it executes
    exactly one update of the task, and then either refreshes the cache
    entry of the task from the store and leaves editing mode, or, when the
    session has no cache, raises [KeyError] with the update already
    committed. *)
Theorem update_todo_callback_outcomes (todo_id : Z) (w : World) o w' :
  update_todo_callback todo_id w = (o, w') →
  (o = Raise KeyError ∧ w' = w)
  ∨ (o = Return tt
     ∧ w' = mkWorld (db w)
              (mkSessionState (text_state (session w)) (date_state (session w))
                 (<[currently_editing_key todo_id := true]> (flag_state (session w)))
                 (todos_data (session w)))
              (toasts w ++ ["Title cannot be empty."]) (page w))
  ∨ ((∃ values, db w' = execute (UpdateTodo todo_id values) (db w))
     ∧ ((o = Return tt
         ∧ (∃ todos, todos_data (session w) = Some todos
                     ∧ todos_data (session w')
                       = Some (<[todo_id := load_todo todo_id (db w')]> todos))
         ∧ flag_state (session w') !! currently_editing_key todo_id = Some false)
        ∨ (o = Raise KeyError
           ∧ todos_data (session w) = None
           ∧ session w' = session w))).
Proof.
  unfold update_todo_callback, bind, text_item, date_item. intros Hrun.
  destruct (text_state (session w) !! edit_todo_form_key todo_id "title") as [title|];
    [|left; by injection Hrun as <- <-].
  destruct (text_state (session w) !! edit_todo_form_key todo_id "description");
    [|left; by injection Hrun as <- <-].
  destruct (text_state (session w) !! edit_todo_form_key todo_id "status");
    [|left; by injection Hrun as <- <-].
  destruct (text_state (session w) !! edit_todo_form_key todo_id "requester");
    [|left; by injection Hrun as <- <-].
  destruct (date_state (session w) !! edit_todo_form_key todo_id "due_date");
    [|left; by injection Hrun as <- <-].
  destruct title as [[|c t]|];
    [right; left; by injection Hrun as <- <-| |right; left; by injection Hrun as <- <-].
  right. right.
  unfold commit, query, set_todo_item, get_todos, set_todos, set_flag, bind,
    with_session, with_db in Hrun. cbn [db session todos_data] in Hrun.
  destruct (todos_data (session w)) as [todos|] eqn:E.
  - injection Hrun as <- <-. cbn [db session todos_data flag_state].
    split; [by eexists|]. left. split; [done|].
    split; [by eexists|]. apply lookup_insert_eq.
  - injection Hrun as <- <-. cbn [db session].
    split; [by eexists|]. right. by destruct (session w).
Qed.

(** X7. With the five values of the edit form in the session state and a
    title that is not empty, [update_todo_callback] on a task of the store
    executes one update that sets the title, description, status, requester
    and due date of its row and keeps its label, priority, creation date
    and done flag; no other row and no subtask changes, the cache entry of
    the task becomes the row as written, and the task leaves editing
    mode. *)
Theorem update_todo_callback_writes (todo_id : Z) (w : World)
    (title : string) (description status requester : option string)
    (due_at : option date) (todos : gmap Z (option Todo.t)) (r : TodoRow.t) :
  text_state (session w) !! edit_todo_form_key todo_id "title" = Some (Some title) →
  title ≠ "" →
  text_state (session w) !! edit_todo_form_key todo_id "description" = Some description →
  text_state (session w) !! edit_todo_form_key todo_id "status" = Some status →
  text_state (session w) !! edit_todo_form_key todo_id "requester" = Some requester →
  date_state (session w) !! edit_todo_form_key todo_id "due_date" = Some due_at →
  todos_data (session w) = Some todos →
  todo_table (db w) !! todo_id = Some r →
  ∃ w',
    update_todo_callback todo_id w = (Return tt, w')
    ∧ executed (db w')
      = executed (db w)
        ++ [UpdateTodo todo_id [SetTitle title; SetDescription description;
                                SetStatus status; SetRequester requester;
                                SetDueAt due_at]]
    ∧ todo_table (db w')
      = <[todo_id := TodoRow.make title description (TodoRow.label r)
                       (TodoRow.priority r) status requester
                       (TodoRow.created_at r) due_at (TodoRow.done r)]>
          (todo_table (db w))
    ∧ subtask_table (db w') = subtask_table (db w)
    ∧ todos_data (session w')
      = Some (<[todo_id := Some (Todo.make todo_id title description
                                   (TodoRow.label r) requester (TodoRow.priority r)
                                   status (TodoRow.created_at r) due_at
                                   (TodoRow.done r))]> todos)
    ∧ flag_state (session w') !! currently_editing_key todo_id = Some false.
Proof.
  intros Ht Hne Hd Hs Hr Hdue Htodos Hrow.
  erewrite update_todo_callback_ready by done.
  eexists. split; [reflexivity|]. cbn [db session todos_data flag_state].
  assert (Htable :
    todo_table (execute (UpdateTodo todo_id
                           (updated_values title description status requester due_at))
                  (db w))
    = <[todo_id := TodoRow.make title description (TodoRow.label r)
                     (TodoRow.priority r) status requester
                     (TodoRow.created_at r) due_at (TodoRow.done r)]>
        (todo_table (db w))).
  { cbn [execute todo_table].
    by rewrite (alter_lookup_insert _ _ _ _ Hrow), updated_values_row. }
  split; [done|]. split; [exact Htable|]. split; [done|].
  split; [|apply lookup_insert_eq].
  do 2 f_equal. by rewrite load_todo_lookup, Htable, lookup_insert_eq.
Qed.

(** ** Creating, then deleting *)

(** X8. Creating a task and then deleting it, from a state whose cache
    mirrors the store, brings the relation of tasks and the cache back to
    what they were; the subtasks are as they were, and two statements have
    been executed, the insert and the delete. *)
Theorem create_then_delete (today : date) (f : NewTodoForm.t) (w : World) :
  in_sync w →
  NewTodoForm.title f ≠ "" →
  ∃ w1 w2 new_id values,
    submit (SubmitNew today f) w = (Return tt, w1)
    ∧ todo_table (db w) !! new_id = None
    ∧ is_Some (todo_table (db w1) !! new_id)
    ∧ run_mutation (Delete new_id) w1 = (Return tt, w2)
    ∧ todo_table (db w2) = todo_table (db w)
    ∧ subtask_table (db w2) = subtask_table (db w)
    ∧ todos_data (session w2) = todos_data (session w)
    ∧ executed (db w2) = executed (db w) ++ [InsertTodo values; DeleteTodo new_id].
Proof.
  intros Hsync Htitle. unfold submit. cbn [run_mutation].
  rewrite create_todo_callback_submitted by done.
  set (new_id := next_todo_id (todo_table (db w))).
  assert (Hfresh : todo_table (db w) !! new_id = None) by apply next_todo_id_fresh.
  eexists _, _, new_id, _. split; [reflexivity|]. split; [exact Hfresh|].
  cbn [db execute todo_table]. fold new_id.
  split; [by rewrite lookup_insert_eq|].
  rewrite delete_todo_callback_run. split; [reflexivity|].
  cbn [db session todos_data execute todo_table subtask_table executed].
  assert (Htable : delete new_id (<[new_id := assign_all (new_todo_data today f)
                                                TodoRow.blank]> (todo_table (db w)))
                   = todo_table (db w)).
  { rewrite delete_insert_eq. by apply delete_id. }
  split; [exact Htable|]. split; [done|]. split.
  - rewrite Hsync. f_equal. by apply load_all_todos_ext.
  - by rewrite <- app_assoc.
Qed.

(** ** Subtasks *)

(** The store gives a subtask it inserts a key that is not yet in the
    relation of subtasks. *)
Hypothesis next_subtask_id_fresh : ∀ m, m !! next_subtask_id m = None.

Lemma filter_fmap_rows {A B} (f : A → B) (P : B → Prop) (Q : A → Prop)
    `{∀ x, Decision (P x)} `{∀ x, Decision (Q x)} (l : list A) :
  (∀ x, P (f x) ↔ Q x) → filter P (f <$> l) = f <$> filter Q l.
Proof.
  intros HPQ. induction l as [|x l IH]; [done|]. csimpl.
  destruct (decide (Q x)) as [Hq|Hq].
  - rewrite (filter_cons_True P), (filter_cons_True Q) by (done || by apply HPQ).
    csimpl. by rewrite IH.
  - rewrite (filter_cons_False P), (filter_cons_False Q) by (done || by rewrite HPQ).
    done.
Qed.

(** X9. [create_subtask] executes one insert: the subtasks [load_subtasks]
    returns for the task are those it returned before and one more, with
    the given title, not done, under a key no subtask had; the subtasks of
    every other task, the tasks and the session state are as they were. *)
Theorem create_subtask_adds_one (todo_id : Z) (title : string) (w : World) :
  ∃ w' new_id,
    create_subtask todo_id title w = (Return tt, w')
    ∧ executed (db w') = executed (db w) ++ [InsertSubtask todo_id title false]
    ∧ subtask_table (db w) !! new_id = None
    ∧ load_subtasks todo_id (db w')
      ≡ₚ Subtask.make new_id todo_id title false :: load_subtasks todo_id (db w)
    ∧ (∀ k, k ≠ todo_id → load_subtasks k (db w') ≡ₚ load_subtasks k (db w))
    ∧ todo_table (db w') = todo_table (db w)
    ∧ session w' = session w.
Proof.
  set (new_id := next_subtask_id (subtask_table (db w))).
  assert (Hfresh : subtask_table (db w) !! new_id = None)
    by apply next_subtask_id_fresh.
  eexists _, new_id. split; [reflexivity|].
  cbn [db with_db session with_session execute executed todo_table subtask_table].
  split; [done|]. split; [exact Hfresh|]. fold new_id.
  assert (Hperm : ∀ k,
    select_subtasks k (mkDatabase (todo_table (db w))
                         (<[new_id := SubtaskRow.make todo_id title false]>
                            (subtask_table (db w)))
                         (executed (db w) ++ [InsertSubtask todo_id title false]))
    ≡ₚ filter (λ row, SubtaskRow.todo_id row.2 = k)
         ((new_id, SubtaskRow.make todo_id title false)
          :: map_to_list (subtask_table (db w)))).
  { intros k. unfold select_subtasks. cbn [subtask_table].
    by rewrite map_to_list_insert. }
  split; [|split; [|by destruct (session w)]].
  - unfold load_subtasks. rewrite Hperm, filter_cons_True by done. done.
  - intros k Hk. unfold load_subtasks.
    rewrite Hperm, filter_cons_False by (simpl; congruence). done.
Qed.

Lemma select_subtasks_mark_all (todo_id k : Z) (d : Database) :
  select_subtasks k (execute (UpdateSubtasksOf todo_id true) d)
  = prod_map id (λ r, if bool_decide (SubtaskRow.todo_id r = todo_id)
                      then set_subtask_done true r else r)
      <$> select_subtasks k d.
Proof.
  unfold select_subtasks. cbn [execute subtask_table].
  rewrite map_to_list_fmap. apply filter_fmap_rows.
  intros [j r]. simpl. by case_bool_decide.
Qed.

(** X10. [mark_all_subtasks_done] executes one update: every subtask of the
    task is then done, with its key and title unchanged and none added or
    removed; the subtasks of every other task and the tasks are as they
    were; and marking a second time changes no row. *)
Theorem mark_all_subtasks_done_marks (todo_id : Z) (w : World) :
  ∃ w' w'',
    mark_all_subtasks_done todo_id w = (Return tt, w')
    ∧ executed (db w') = executed (db w) ++ [UpdateSubtasksOf todo_id true]
    ∧ load_subtasks todo_id (db w')
      = (λ s, Subtask.make (Subtask.id s) (Subtask.todo_id s) (Subtask.title s) true)
          <$> load_subtasks todo_id (db w)
    ∧ (∀ k, k ≠ todo_id → load_subtasks k (db w') = load_subtasks k (db w))
    ∧ todo_table (db w') = todo_table (db w)
    ∧ mark_all_subtasks_done todo_id w' = (Return tt, w'')
    ∧ subtask_table (db w'') = subtask_table (db w').
Proof.
  eexists _, _. split; [reflexivity|]. cbn [db with_db].
  split; [done|]. split; [|split; [|split; [done|split; [reflexivity|]]]].
  - unfold load_subtasks. rewrite select_subtasks_mark_all.
    rewrite <- !list_fmap_compose. apply Forall_fmap_ext_1, Forall_forall.
    intros [j r] Hin. unfold select_subtasks in Hin.
    apply list_elem_of_filter in Hin as [Hk _]. simpl in *.
    by rewrite bool_decide_eq_true_2.
  - intros k Hk. unfold load_subtasks. rewrite select_subtasks_mark_all.
    rewrite <- !list_fmap_compose. apply Forall_fmap_ext_1, Forall_forall.
    intros [j r] Hin. unfold select_subtasks in Hin.
    apply list_elem_of_filter in Hin as [Hk' _]. simpl in *.
    by rewrite bool_decide_eq_false_2 by congruence.
  - cbn [db with_db execute subtask_table]. apply map_eq. intros j.
    rewrite !lookup_fmap. destruct (subtask_table (db w) !! j) as [r|]; [|done].
    simpl. f_equal. by repeat (case_bool_decide; simpl).
Qed.

(** ** The check box of a subtask *)

Lemma checkbox_key_inj (i j : Z) : checkbox_key i = checkbox_key j → i = j.
Proof.
  unfold checkbox_key. intros H. apply append_inj_l in H.
  by apply (inj pretty) in H.
Qed.

Lemma subtask_checkbox_agrees (sub : Subtask.t) (w : World) :
  checkbox_agrees (session w) sub →
  subtask_checkbox sub w
  = (Return tt,
     mkWorld (db w)
       (mkSessionState (text_state (session w)) (date_state (session w))
          (<[checkbox_key (Subtask.id sub) := Subtask.done sub]> (flag_state (session w)))
          (todos_data (session w)))
       (toasts w)
       (page w ++ [Checkbox (strike (Subtask.done sub) (Subtask.title sub))
                     (Subtask.done sub) (checkbox_key (Subtask.id sub))])).
Proof.
  unfold checkbox_agrees, subtask_checkbox. fold (checkbox_key (Subtask.id sub)).
  intros [Hk|Hk]; rewrite Hk.
  - rewrite lookup_insert_eq. cbn [default]. rewrite Bool.eqb_reflx. done.
  - rewrite Hk. cbn [default]. rewrite Bool.eqb_reflx.
    by rewrite (insert_id _ _ _ Hk).
Qed.

Lemma subtask_checkbox_changed (sub : Subtask.t) (b : bool) (w : World) :
  flag_state (session w) !! checkbox_key (Subtask.id sub) = Some b →
  b ≠ Subtask.done sub →
  subtask_checkbox sub w
  = (Raise RerunException,
     mkWorld (execute (UpdateSubtask (Subtask.id sub) b) (db w)) (session w)
       (toasts w)
       (page w ++ [Checkbox (strike (Subtask.done sub) (Subtask.title sub))
                     (Subtask.done sub) (checkbox_key (Subtask.id sub))])).
Proof.
  unfold subtask_checkbox. fold (checkbox_key (Subtask.id sub)).
  intros Hk Hne. rewrite Hk, Hk. cbn [default from_option id].
  replace (Bool.eqb b (Subtask.done sub)) with false
    by (by destruct b, (Subtask.done sub)).
  unfold bind, emit, toggle_subtask_done, commit, raise, with_session, with_db.
  cbn [negb db session toasts page]. by destruct (session w).
Qed.

(** X11. A check box whose value in the session state differs from the
    done flag of its subtask: rendering it executes one update that writes
    the value of the check box to the subtask, and raises
    [RerunException]; rendered again from the row as written, the check box
    has no pending change and nothing is written. *)
Theorem subtask_checkbox_pending (k : Z) (r : SubtaskRow.t) (b : bool) (w : World) :
  subtask_table (db w) !! k = Some r →
  flag_state (session w) !! checkbox_key k = Some b →
  b ≠ SubtaskRow.done r →
  ∃ w' w'' r',
    subtask_checkbox (Subtask.from_row (k, r)) w = (Raise RerunException, w')
    ∧ executed (db w') = executed (db w) ++ [UpdateSubtask k b]
    ∧ subtask_table (db w') !! k = Some r'
    ∧ r' = SubtaskRow.make (SubtaskRow.todo_id r) (SubtaskRow.title r) b
    ∧ (∀ j, j ≠ k → subtask_table (db w') !! j = subtask_table (db w) !! j)
    ∧ todo_table (db w') = todo_table (db w)
    ∧ session w' = session w
    ∧ subtask_checkbox (Subtask.from_row (k, r')) w' = (Return tt, w'')
    ∧ db w'' = db w'.
Proof.
  intros Hrow Hk Hne.
  eexists _, _, _. split.
  { by apply (subtask_checkbox_changed (Subtask.from_row (k, r)) b). }
  cbn [db session execute executed subtask_table todo_table Subtask.id
       Subtask.from_row fst snd].
  split; [done|]. split; [by rewrite lookup_alter_eq, Hrow|].
  split; [done|]. split; [by intros j Hj; rewrite lookup_alter_ne|].
  split; [done|]. split; [done|]. split.
  - apply subtask_checkbox_agrees. right. exact Hk.
  - reflexivity.
Qed.

(** ** What rendering a card can do *)

Lemma card_frame_ret allowed {A} (a : A) : card_frame allowed (ret a).
Proof. intros w o w' [= <- <-]. split; [done|by left]. Qed.

Lemma card_frame_raise allowed {A} (e : Exception) :
  allowed e → card_frame allowed (@raise A e).
Proof. intros He w o w' [= <- <-]. split; [by intros ? [= <-]|by left]. Qed.

Lemma card_frame_bind allowed {A B} (m : Run A) (k : A → Run B) :
  card_frame allowed m → (∀ a, card_frame allowed (k a)) →
  card_frame allowed (bind m k).
Proof.
  intros Hm Hk w o w'. unfold bind.
  destruct (m w) as [[a|e] w1] eqn:E; intros H.
  - destruct (Hm _ _ _ E) as [_ [Hdb|[? _]]]; [|done].
    destruct (Hk a _ _ _ H) as [Hal Hw]. rewrite Hdb in Hw. done.
  - injection H as <- <-. destruct (Hm _ _ _ E) as [Hal Hw]. split.
    + intros e' [= <-]. by apply Hal.
    + destruct Hw as [?|[[= ->] ?]]; [by left|by right].
Qed.

Lemma card_frame_emit allowed (e : Element) : card_frame allowed (emit e).
Proof. intros w o w' [= <- <-]. split; [done|by left]. Qed.

Lemma card_frame_query allowed {A} (f : Database → A) : card_frame allowed (query f).
Proof. intros w o w' [= <- <-]. split; [done|by left]. Qed.

Lemma card_frame_attr_strftime (allowed : Exception → Prop) (due_date : option date)
    (format : string) :
  (due_date = None → allowed AttributeError) →
  card_frame allowed (attr_strftime due_date format).
Proof.
  destruct due_date; intros H; [apply card_frame_ret|].
  by apply card_frame_raise, H.
Qed.

Lemma card_frame_generate_gcal_link (allowed : Exception → Prop) (title : string)
    (description : option string) (due_date : option date) :
  (due_date = None → allowed AttributeError) →
  card_frame allowed (generate_gcal_link title description due_date).
Proof.
  intros H. unfold generate_gcal_link.
  apply card_frame_bind; [by apply card_frame_attr_strftime|]. intros start.
  apply card_frame_bind; [by apply card_frame_attr_strftime|]. intros end_.
  apply card_frame_ret.
Qed.

Lemma card_frame_subtask_checkbox (allowed : Exception → Prop) (sub : Subtask.t) :
  allowed RerunException → card_frame allowed (subtask_checkbox sub).
Proof.
  intros Hal w o w' Hrun.
  destruct (flag_state (session w) !! checkbox_key (Subtask.id sub)) as [b|] eqn:Hk.
  - destruct (decide (b = Subtask.done sub)) as [->|Hne].
    + rewrite subtask_checkbox_agrees in Hrun by (by right).
      injection Hrun as <- <-. split; [done|by left].
    + rewrite (subtask_checkbox_changed sub b) in Hrun by done.
      injection Hrun as <- <-. split; [by intros ? [= <-]|].
      right. split; [done|]. by eexists _, _.
  - rewrite subtask_checkbox_agrees in Hrun by (by left).
    injection Hrun as <- <-. split; [done|by left].
Qed.

Lemma card_frame_for_each allowed {A} (f : A → Run unit) (l : list A) :
  (∀ x, card_frame allowed (f x)) → card_frame allowed (for_each f l).
Proof.
  intros Hf. induction l as [|x l IH]; [apply card_frame_ret|].
  apply card_frame_bind; [apply Hf|done].
Qed.

Lemma card_frame_todo_card (todo_item : Todo.t) :
  card_frame (λ e, e = RerunException
                   ∨ (e = AttributeError ∧ Todo.due_at todo_item = None))
    (todo_card todo_item).
Proof.
  unfold todo_card.
  repeat first
    [ apply card_frame_emit | apply card_frame_ret | apply card_frame_query
    | apply card_frame_attr_strftime; intros ?; by right
    | apply card_frame_generate_gcal_link; intros ?; by right
    | apply card_frame_for_each; intros ?; apply card_frame_subtask_checkbox; by left
    | apply card_frame_bind; [|intros ?]
    | match goal with |- card_frame _ (match ?x with _ => _ end) => destruct x end
    | match goal with |- card_frame _ (if ?x then _ else _) => destruct x end ].
Qed.

(** The card of a run that no click has caused: whatever its outcome, it
    leaves the tasks, the cache and the values of the text widgets as they
    were; it raises nothing but [AttributeError], and that only when the
    task has no due date, and [RerunException]; it writes to the store at
    most once, the done flag of one subtask, and then it raises
    [RerunException]. *)
Lemma todo_card_effects (todo_item : Todo.t) (w : World) o w' :
  todo_card todo_item w = (o, w') →
  todo_table (db w') = todo_table (db w)
  ∧ todos_data (session w') = todos_data (session w)
  ∧ text_state (session w') = text_state (session w)
  ∧ (∀ e, o = Raise e →
          e = RerunException ∨ (e = AttributeError ∧ Todo.due_at todo_item = None))
  ∧ (db w' = db w
     ∨ (o = Raise RerunException
        ∧ ∃ k b, db w' = execute (UpdateSubtask k b) (db w))).
Proof.
  intros Hrun.
  destruct (frame_todo_card todo_item _ _ _ Hrun) as (H1 & H2 & H3).
  destruct (card_frame_todo_card todo_item _ _ _ Hrun) as [H4 H5].
  done.
Qed.

(** ** A card that is rendered to its end *)

Lemma load_subtasks_NoDup (todo_id : Z) (d : Database) :
  NoDup (Subtask.id <$> load_subtasks todo_id d).
Proof.
  unfold load_subtasks, select_subtasks. rewrite <- list_fmap_compose.
  apply (sublist_NoDup _ ((map_to_list (subtask_table d)).*1));
    [apply NoDup_fst_map_to_list|].
  apply fmap_sublist, sublist_filter.
Qed.

Lemma NoDup_fmap_elem_of_inj {A B} (f : A → B) (l : list A) (x y : A) :
  NoDup (f <$> l) → x ∈ l → y ∈ l → f x = f y → x = y.
Proof.
  induction l as [|z l IH]; csimpl; intros Hnd Hx Hy Hf.
  - by apply elem_of_nil in Hx.
  - apply NoDup_cons in Hnd as [Hz Hnd].
    apply elem_of_cons in Hx as [->|Hx]; apply elem_of_cons in Hy as [->|Hy].
    + done.
    + destruct Hz. rewrite Hf. by apply list_elem_of_fmap_2.
    + destruct Hz. rewrite <- Hf. by apply list_elem_of_fmap_2.
    + by apply IH.
Qed.

Section returns.
Context (d : Database) (subs : list Subtask.t).

Lemma returns_ret {A} (a : A) (Q : A → Prop) : Q a → returns d subs (ret a) Q.
Proof. intros Ha w Hd Hs. by eexists _, _. Qed.

Lemma returns_bind {A B} (m : Run A) (k : A → Run B) (Q : A → Prop) (R : B → Prop) :
  returns d subs m Q → (∀ a, Q a → returns d subs (k a) R) →
  returns d subs (bind m k) R.
Proof.
  intros Hm Hk w Hd Hs. unfold bind.
  destruct (Hm w Hd Hs) as (a & w1 & -> & Ha & Hd1 & Hs1).
  by apply (Hk a Ha w1).
Qed.

Lemma returns_emit (e : Element) : returns d subs (emit e) (λ _, True).
Proof. intros w Hd Hs. by eexists _, _. Qed.

Lemma returns_query {A} (f : Database → A) : returns d subs (query f) (λ a, a = f d).
Proof. intros w Hd Hs. eexists _, _. split; [done|]. by rewrite Hd. Qed.

Lemma returns_generate_gcal_link (title : string) (description : option string)
    (due : date) :
  returns d subs (generate_gcal_link title description (Some due)) (λ _, True).
Proof. intros w Hd Hs. by eexists _, _. Qed.

Lemma returns_subtask_checkbox (sub : Subtask.t) :
  NoDup (Subtask.id <$> subs) → sub ∈ subs →
  returns d subs (subtask_checkbox sub) (λ _, True).
Proof.
  intros Hnd Hin w Hd Hs.
  assert (Hsub : checkbox_agrees (session w) sub).
  { rewrite Forall_forall in Hs. by apply Hs. }
  rewrite subtask_checkbox_agrees by done.
  eexists _, _. split; [done|]. split; [done|]. split; [done|].
  cbn [session]. rewrite Forall_forall in *. intros sub' Hin'.
  unfold checkbox_agrees. cbn [flag_state].
  destruct (decide (Subtask.id sub' = Subtask.id sub)) as [Heq|Hne].
  - assert (sub' = sub) as -> by (by eapply NoDup_fmap_elem_of_inj).
    right. apply lookup_insert_eq.
  - rewrite lookup_insert_ne; [by apply Hs|].
    intros Hk. by apply checkbox_key_inj in Hk.
Qed.

Lemma returns_for_each {A} (f : A → Run unit) (l : list A) :
  (∀ x, x ∈ l → returns d subs (f x) (λ _, True)) →
  returns d subs (for_each f l) (λ _, True).
Proof.
  induction l as [|x l IH]; intros Hf; [by apply returns_ret|].
  eapply returns_bind; [apply Hf, list_elem_of_here|]. intros _ _.
  apply IH. intros y Hy. by apply Hf, list_elem_of_further.
Qed.

End returns.

(** The card of a run that no click has caused, for a task that has a due
    date, in a state where no check box of its subtasks has a pending
    change, is rendered to its end and writes nothing. *)
Lemma todo_card_completes (todo_item : Todo.t) (due : date) (w : World) :
  Todo.due_at todo_item = Some due →
  Forall (checkbox_agrees (session w)) (load_subtasks (Todo.id todo_item) (db w)) →
  ∃ w',
    todo_card todo_item w = (Return tt, w')
    ∧ db w' = db w
    ∧ todos_data (session w') = todos_data (session w)
    ∧ text_state (session w') = text_state (session w)
    ∧ Forall (checkbox_agrees (session w')) (load_subtasks (Todo.id todo_item) (db w)).
Proof.
  intros Hdue Hagree.
  pose proof (load_subtasks_NoDup (Todo.id todo_item) (db w)) as Hnd.
  assert (Hret : returns (db w) (load_subtasks (Todo.id todo_item) (db w))
                   (todo_card todo_item) (λ _, True)).
  { unfold todo_card. rewrite Hdue. unfold attr_strftime at 1.
    remember (load_subtasks (Todo.id todo_item) (db w)) as subs eqn:Hsubs.
    remember (db w) as d eqn:Hd. clear Hagree Hd.
    do 3 (eapply returns_bind; [apply returns_emit|]; intros _ _).
    eapply returns_bind; [apply (returns_ret d subs _ (λ _, True) I)|]. intros ? _.
    do 2 (eapply returns_bind; [apply returns_emit|]; intros _ _).
    eapply returns_bind; [apply returns_generate_gcal_link|]. intros ? _.
    do 5 (eapply returns_bind; [apply returns_emit|]; intros _ _).
    eapply returns_bind; [apply returns_query|]. intros ? ->.
    rewrite <- Hsubs. clear Hsubs.
    eapply (returns_bind _ _ _ _ (λ _, True)).
    - destruct subs as [|sub rest] eqn:Hsubs; [apply returns_emit|].
      rewrite <- Hsubs in *.
      do 2 (eapply returns_bind; [apply returns_emit|]; intros _ _).
      eapply returns_bind.
      { apply returns_for_each. intros x Hx. by apply returns_subtask_checkbox. }
      intros _ _. destruct (_ <? _)%nat; [apply returns_emit|].
      by apply returns_ret.
    - intros _ _. eapply returns_bind; [apply returns_emit|]. intros _ _.
      apply returns_emit. }
  destruct (Hret w eq_refl Hagree) as ([] & w' & Hrun & _ & Hdb & Hs).
  destruct (frame_todo_card todo_item _ _ _ Hrun) as (_ & H2 & H3).
  by exists w'.
Qed.

(** ** The list of the page *)

(** X14. The form for a new task offers the status "done", which is not an
    option of the status filter of the sidebar: whatever is selected there,
    a task with that status is not in the filtered sequence. *)
Theorem done_status_filtered_out (todos : list Todo.t) (fl fp fs : list string)
    (hide_done : bool) (t : Todo.t) :
  fs ⊆ status_options →
  Todo.status t = Some "done" →
  "done" ∈ new_todo_status_options
  ∧ t ∉ filtered_todos todos fl fp fs hide_done.
Proof.
  intros Hfs Hstatus. split.
  { unfold new_todo_status_options. do 3 apply list_elem_of_further.
    apply list_elem_of_here. }
  intros (_ & _ & _ & (s & Hs & Hin) & _)%elem_of_filtered_todos.
  rewrite Hstatus in Hs. injection Hs as <-.
  apply Hfs in Hin. unfold status_options in Hin.
  repeat (apply elem_of_cons in Hin as [Hin|Hin]; [discriminate Hin|]).
  by apply elem_of_nil in Hin.
Qed.

(** X15. Selecting more never hides a task: when each selection is
    widened, and done tasks are hidden only if they were before, every task
    of the filtered sequence is still in it.  Hiding done tasks is the same
    as showing them and then dropping the done ones. *)
Theorem filtered_todos_monotone (todos : list Todo.t)
    (fl fp fs fl' fp' fs' : list string) (hide_done hide_done' : bool) :
  fl ⊆ fl' → fp ⊆ fp' → fs ⊆ fs' →
  (hide_done' = true → hide_done = true) →
  (∀ t, t ∈ filtered_todos todos fl fp fs hide_done →
        t ∈ filtered_todos todos fl' fp' fs' hide_done')
  ∧ filtered_todos todos fl fp fs true
    = List.filter (λ t, negb (Todo.done t)) (filtered_todos todos fl fp fs false).
Proof.
  intros Hl Hp Hs Hh. split.
  - intros t. rewrite !elem_of_filtered_todos.
    intros (Hin & (sl & ? & ?) & (sp & ? & ?) & (ss & ? & ?) & Hd).
    split_and!; [done|exists sl|exists sp|exists ss|]; auto.
  - unfold filtered_todos. induction todos as [|t todos IH]; [done|].
    cbn [List.filter]. rewrite IH.
    assert (Hk : keep_todo fl fp fs true t
                 = keep_todo fl fp fs false t && negb (Todo.done t)).
    { unfold keep_todo. cbn [negb orb]. by rewrite andb_true_r. }
    rewrite Hk. destruct (keep_todo fl fp fs false t); [|done].
    cbn [andb List.filter]. by destruct (Todo.done t).
Qed.

(** X16. Sorting, by due date or by creation date, returns a permutation of
    the list in the order of the key, the date or [date.max] where there is
    none: with "Descending" no task comes before a task with a later key,
    with the other order no task comes before a task with an earlier key;
    and the tasks that have one and the same key keep the order they had in
    the input. *)
Theorem sorted_todos_ordered (sort_by : SortBy) (sort_ascending : string)
    (l : list Todo.t) :
  sorted_todos sort_by sort_ascending l ≡ₚ l
  ∧ (∀ (i j : nat) (a b : Todo.t),
       sorted_todos sort_by sort_ascending l !! i = Some a →
       sorted_todos sort_by sort_ascending l !! j = Some b →
       (i < j)%nat →
       if String.eqb sort_ascending "Descending"
       then date_leb (sort_key sort_by b) (sort_key sort_by a) = true
       else date_leb (sort_key sort_by a) (sort_key sort_by b) = true)
  ∧ (∀ k : date,
       List.filter (λ t, date_eqb (sort_key sort_by t) k)
         (sorted_todos sort_by sort_ascending l)
       = List.filter (λ t, date_eqb (sort_key sort_by t) k) l).
Proof.
  unfold sorted_todos.
  split; [apply list_sort_Permutation|]. split.
  - intros i j a b Hi Hj Hlt.
    destruct (String.eqb sort_ascending "Descending"); apply date_leb_code.
    + by eapply list_sort_descending.
    + by eapply list_sort_ascending.
  - intros k. apply list_sort_stable.
Qed.

(** ** The card, with the click that caused the run *)

Lemma bind_ext {A B} (m m' : Run A) (k k' : A → Run B) (w : World) :
  (∀ w, m w = m' w) → (∀ a w, k a w = k' a w) → bind m k w = bind m' k' w.
Proof.
  intros Hm Hk. unfold bind. rewrite Hm.
  destruct (m' w) as [[a|e] w1]; [apply Hk|done].
Qed.

Lemma bind_ret_l {A B} (a : A) (k : A → Run B) (w : World) :
  bind (ret a) k w = k a w.
Proof. reflexivity. Qed.

Lemma bind_ret_r (m : Run unit) (w : World) : bind m (λ _, ret tt) w = m w.
Proof. unfold bind, ret. by destruct (m w) as [[[]|e] w1]. Qed.

Lemma add_form_no_click (key : string) (w : World) :
  (new_subtask <- text_input "Add subtask" key ;;
   emit (FormSubmitButton "Add") ;; ret tt) w
  = (emit (TextInput "Add subtask" key) ;; emit (FormSubmitButton "Add")) w.
Proof. reflexivity. Qed.

(** The card of the events of a session is the card of a run that no click
    of one of its buttons has caused. *)
Lemma todo_card_run_no_click (todo_item : Todo.t) (w : World) :
  todo_card_run NoClick todo_item w = todo_card todo_item w.
Proof.
  unfold todo_card_run, todo_card. cbv zeta.
  do 3 (apply bind_ext; [done|]; intros _ ?).
  apply bind_ext; [done|]; intros ? ?.
  do 2 (apply bind_ext; [done|]; intros _ ?).
  apply bind_ext; [done|]; intros ? ?.
  do 4 (apply bind_ext; [done|]; intros _ ?).
  rewrite bind_ret_l.
  apply bind_ext; [done|]; intros _ ?.
  apply bind_ext; [done|]; intros subtasks ?.
  apply bind_ext.
  - intros w'. destruct subtasks as [|sub rest]; [done|].
    do 3 (apply bind_ext; [done|]; intros _ ?).
    destruct (_ <? _)%nat; [|done]. apply bind_ret_r.
  - intros _ w'. apply add_form_no_click.
Qed.

Section click_frame.
Context (click : Click) (todo_id : Z) (allowed : Exception → Prop).

Lemma click_frame_ret {A} (a : A) : click_frame click todo_id allowed (ret a).
Proof. intros w o w' [= <- <-]. split_and!; [done|done|by left]. Qed.

Lemma click_frame_raise {A} (e : Exception) :
  allowed e → click_frame click todo_id allowed (@raise A e).
Proof.
  intros He w o w' [= <- <-]. split_and!; [done|by intros ? [= <-]|by left].
Qed.

Lemma click_frame_unchanged {A} (m : Run A) :
  (∀ w, ∃ a w', m w = (Return a, w')
                ∧ db w' = db w
                ∧ text_state (session w') = text_state (session w)
                ∧ todos_data (session w') = todos_data (session w)) →
  click_frame click todo_id allowed m.
Proof.
  intros Hm w o w' Hrun. destruct (Hm w) as (a & w1 & Hw & Hdb & Ht & Hc).
  rewrite Hw in Hrun. injection Hrun as <- <-.
  split_and!; [done|done|by left].
Qed.

Lemma click_frame_bind {A B} (m : Run A) (k : A → Run B) :
  click_frame click todo_id allowed m →
  (∀ a, click_frame click todo_id allowed (k a)) →
  click_frame click todo_id allowed (bind m k).
Proof.
  intros Hm Hk w o w'. unfold bind.
  destruct (m w) as [[a|e] w1] eqn:E; intros H.
  - destruct (Hm _ _ _ E) as (Ht & _ & [[Hdb Hc]|[? _]]); [|done].
    destruct (Hk a _ _ _ H) as (Ht' & Hal & Hw).
    split_and!; [congruence|done|].
    destruct Hw as [[Hdb' Hc']|[Ho Hwrite]]; [left; split; congruence|].
    right. split; [done|]. unfold card_write in *. by rewrite <- Hdb, <- Hc.
  - injection H as <- <-. destruct (Hm _ _ _ E) as (Ht & Hal & Hw).
    split_and!; [done|intros e' [= <-]; by apply Hal|].
    destruct Hw as [?|[[= ->] ?]]; [by left|by right].
Qed.

Lemma click_frame_for_each {A} (f : A → Run unit) (l : list A) :
  (∀ x, click_frame click todo_id allowed (f x)) →
  click_frame click todo_id allowed (for_each f l).
Proof.
  intros Hf. induction l as [|x l IH]; [apply click_frame_ret|].
  apply click_frame_bind; [apply Hf|done].
Qed.

Lemma click_frame_subtask_checkbox (sub : Subtask.t) :
  allowed RerunException →
  click_frame click todo_id allowed (subtask_checkbox sub).
Proof.
  intros Hal w o w' Hrun.
  destruct (flag_state (session w) !! checkbox_key (Subtask.id sub)) as [b|] eqn:Hk.
  - destruct (decide (b = Subtask.done sub)) as [->|Hne].
    + rewrite subtask_checkbox_agrees in Hrun by (by right).
      injection Hrun as <- <-. split_and!; [done|done|by left].
    + rewrite (subtask_checkbox_changed sub b) in Hrun by done.
      injection Hrun as <- <-. split_and!; [done|by intros ? [= <-]|].
      right. split; [done|]. left. by eexists _, _.
  - rewrite subtask_checkbox_agrees in Hrun by (by left).
    injection Hrun as <- <-. split_and!; [done|done|by left].
Qed.

End click_frame.

Lemma click_frame_todo_card_run (click : Click) (todo_item : Todo.t) :
  click_frame click (Todo.id todo_item)
    (λ e, e = RerunException
          ∨ (e = AttributeError ∧ Todo.due_at todo_item = None))
    (todo_card_run click todo_item).
Proof.
  assert (Hdelete :
    click_frame DeleteClick (Todo.id todo_item)
      (λ e, e = RerunException
            ∨ (e = AttributeError ∧ Todo.due_at todo_item = None))
      (delete_todo_callback (Todo.id todo_item) ;; @raise unit RerunException)).
  { intros w o w'. unfold bind. rewrite delete_todo_callback_run.
    intros [= <- <-]. split_and!; [done|intros ? [= <-]; by left|].
    right. split; [done|]. right. left. done. }
  assert (Hmark :
    click_frame MarkAllDoneClick (Todo.id todo_item)
      (λ e, e = RerunException
            ∨ (e = AttributeError ∧ Todo.due_at todo_item = None))
      (mark_all_subtasks_done (Todo.id todo_item) ;; @raise unit RerunException)).
  { intros w o w' [= <- <-]. split_and!; [done|intros ? [= <-]; by left|].
    right. split; [done|]. right. right. left. done. }
  assert (Hadd : ∀ text, str_strip text ≠ "" →
    click_frame AddSubtaskClick (Todo.id todo_item)
      (λ e, e = RerunException
            ∨ (e = AttributeError ∧ Todo.due_at todo_item = None))
      (create_subtask (Todo.id todo_item) (str_strip text) ;;
       @raise unit RerunException)).
  { intros text Htext w o w' [= <- <-].
    split_and!; [done|intros ? [= <-]; by left|].
    right. split; [done|]. right. right. right. split; [done|]. by exists text. }
  unfold todo_card_run, text_input. cbv zeta.
  destruct click;
  repeat first
    [ exact Hdelete | exact Hmark
    | apply click_frame_ret
    | apply click_frame_unchanged; intros ?; by eexists _, _
    | apply click_frame_raise; by right
    | apply click_frame_for_each; intros ?;
      apply click_frame_subtask_checkbox; by left
    | apply click_frame_bind; [|intros ?]
    | match goal with
      | |- click_frame _ _ _ (attr_strftime ?d _) =>
          unfold attr_strftime; destruct d eqn:?
      | |- click_frame _ _ _ (generate_gcal_link _ _ ?d) =>
          unfold generate_gcal_link, attr_strftime; destruct d eqn:?
      | |- click_frame _ _ _ (match str_strip ?t with _ => _ end) =>
          let E := fresh in
          destruct (str_strip t) eqn:E; [|rewrite <- E; apply Hadd; by rewrite E]
      | |- click_frame _ _ _ (match ?x with _ => _ end) => destruct x
      | |- click_frame _ _ _ (if ?x then _ else _) => destruct x
      end ].
Qed.

(** A card that fails for want of a due date fails before any of its
    buttons exists: the click makes no difference. *)
Lemma todo_card_run_no_due_date (click : Click) (todo_item : Todo.t) (w : World) :
  Todo.due_at todo_item = None →
  todo_card_run click todo_item w = todo_card todo_item w.
Proof.
  intros Hdue. unfold todo_card_run, todo_card. cbv zeta. rewrite Hdue.
  do 3 (apply bind_ext; [done|]; intros _ ?). reflexivity.
Qed.

(** X12. Whatever its outcome and whichever button was clicked, a run of
    the card leaves the values of the text widgets as they were and raises
    nothing but [AttributeError], and that only when the task has no due
    date, and [RerunException]. It writes to the store at most once, and
    when it has written it raises [RerunException]: it writes the done flag
    of one subtask, or, only if the Delete button was clicked, deletes the
    task and reloads the cache, or, only if Mark All Done was clicked,
    marks the subtasks of the task done, or, only if Add was clicked with a
    text that is not blank, inserts a subtask of the task. A card that is
    rendered to its end has written nothing, and left the cache as it
    was. *)
Theorem todo_card_run_effects (click : Click) (todo_item : Todo.t) (w : World) o w' :
  todo_card_run click todo_item w = (o, w') →
  text_state (session w') = text_state (session w)
  ∧ (∀ e, o = Raise e →
          e = RerunException ∨ (e = AttributeError ∧ Todo.due_at todo_item = None))
  ∧ ((db w' = db w ∧ todos_data (session w') = todos_data (session w))
     ∨ (o = Raise RerunException
        ∧ ((∃ k b, db w' = execute (UpdateSubtask k b) (db w)
                   ∧ todos_data (session w') = todos_data (session w))
           ∨ (click = DeleteClick
              ∧ db w' = execute (DeleteTodo (Todo.id todo_item)) (db w)
              ∧ todos_data (session w') = Some (load_all_todos (db w')))
           ∨ (click = MarkAllDoneClick
              ∧ db w' = execute (UpdateSubtasksOf (Todo.id todo_item) true) (db w)
              ∧ todos_data (session w') = todos_data (session w))
           ∨ (click = AddSubtaskClick
              ∧ ∃ text, str_strip text ≠ ""
                        ∧ db w' = execute (InsertSubtask (Todo.id todo_item)
                                             (str_strip text) false) (db w)
                        ∧ todos_data (session w') = todos_data (session w))))).
Proof.
  intros Hrun.
  destruct (click_frame_todo_card_run click todo_item _ _ _ Hrun) as (Ht & Hal & Hw).
  split; [exact Ht|]. split; [exact Hal|]. exact Hw.
Qed.

(** X13. A run of the card that no click of one of its buttons has caused,
    for a task that has a due date, in a state where no check box of its
    subtasks has a pending change, renders the card to its end: the run
    returns, writes nothing to the store, and leaves the cache and the text
    widgets as they were and the check boxes without a pending change. *)
Theorem todo_card_run_completes (todo_item : Todo.t) (due : date) (w : World) :
  Todo.due_at todo_item = Some due →
  Forall (checkbox_agrees (session w)) (load_subtasks (Todo.id todo_item) (db w)) →
  ∃ w',
    todo_card_run NoClick todo_item w = (Return tt, w')
    ∧ db w' = db w
    ∧ todos_data (session w') = todos_data (session w)
    ∧ text_state (session w') = text_state (session w)
    ∧ Forall (checkbox_agrees (session w')) (load_subtasks (Todo.id todo_item) (db w)).
Proof.
  intros Hdue Hagree. rewrite todo_card_run_no_click.
  by apply (todo_card_completes todo_item due).
Qed.

Lemma bind_returns_step (d : Database) {A B} (m : Run A) (k : A → Run B)
    (Q : A → Prop) (w : World) :
  returns d [] m Q → db w = d →
  ∃ a w1, Q a ∧ db w1 = d ∧ bind m k w = k a w1.
Proof.
  intros Hm Hd. destruct (Hm w Hd (Forall_nil_2 _)) as (a & w1 & Hw & Ha & Hd1 & _).
  exists a, w1. split; [done|]. split; [done|]. unfold bind. by rewrite Hw.
Qed.

(** X17. A run of the card caused by a click of its Delete button, for a
    task that has a due date: the run shows the card down to the Delete
    button, executes the delete of the task, reloads the cache from the
    store and raises [RerunException]. The task is then in neither the
    store nor the cache, the one statement executed is the delete, and the
    subtasks are as they were. *)
Theorem todo_card_run_delete (todo_item : Todo.t) (due : date) (w : World) :
  Todo.due_at todo_item = Some due →
  ∃ w',
    todo_card_run DeleteClick todo_item w = (Raise RerunException, w')
    ∧ db w' = execute (DeleteTodo (Todo.id todo_item)) (db w)
    ∧ todo_table (db w') !! Todo.id todo_item = None
    ∧ todos_data (session w') = Some (load_all_todos (db w'))
    ∧ load_all_todos (db w') !! Todo.id todo_item = None
    ∧ subtask_table (db w') = subtask_table (db w)
    ∧ text_state (session w') = text_state (session w).
Proof.
  intros Hdue.
  assert (Hrun : ∃ w1, db w1 = db w
    ∧ todo_card_run DeleteClick todo_item w
      = (Raise RerunException,
         mkWorld (execute (DeleteTodo (Todo.id todo_item)) (db w1))
           (mkSessionState (text_state (session w1)) (date_state (session w1))
              (<[currently_editing_key (Todo.id todo_item) := false]>
                 (flag_state (session w1)))
              (Some (load_all_todos
                       (execute (DeleteTodo (Todo.id todo_item)) (db w1)))))
           (toasts w1) (page w1))).
  { unfold todo_card_run. rewrite Hdue. unfold attr_strftime at 1. cbv zeta.
    pose (d := db w). assert (Hd : db w = d) by done. revert Hd. generalize w at 1 3.
    intros w0 Hd.
    repeat match goal with
    | |- ∃ w1, _ ∧ bind (emit ?e) ?k ?w0 = _ =>
        destruct (bind_returns_step d (emit e) k _ w0 (returns_emit d [] e) Hd)
          as ([] & w1 & _ & Hd1 & ->); clear Hd w0; rename Hd1 into Hd; rename w1 into w0
    | |- ∃ w1, _ ∧ bind (ret ?a) ?k ?w0 = _ => rewrite bind_ret_l
    | |- ∃ w1, _ ∧ bind (generate_gcal_link ?t ?s (Some ?x)) ?k ?w0 = _ =>
        destruct (bind_returns_step d (generate_gcal_link t s (Some x)) k _ w0
                    (returns_generate_gcal_link d [] t s x) Hd)
          as (? & w1 & _ & Hd1 & ->); clear Hd w0; rename Hd1 into Hd; rename w1 into w0
    end.
    exists w0. split; [done|].
    unfold bind at 1. unfold bind at 1. by rewrite delete_todo_callback_run. }
  destruct Hrun as (w1 & Hd & Hrun).
  destruct (click_frame_todo_card_run _ _ _ _ _ Hrun) as (Htext & _ & _).
  rewrite Hrun. eexists. split; [reflexivity|].
  cbn [db session todos_data text_state] in *. rewrite Hd.
  split; [done|]. cbn [execute todo_table subtask_table].
  split; [apply lookup_delete_eq|]. split; [done|].
  split; [|done]. rewrite load_all_todos_lookup. cbn [execute todo_table].
  by rewrite lookup_delete_eq.
Qed.

End TaskTracker.

(** * The properties on the scenario *)

Lemma serial_fresh {V} (m : gmap Z V) : m !! serial m = None.
Proof.
  destruct (m !! serial m) as [v|] eqn:E; [|done]. exfalso.
  apply elem_of_map_to_list in E. unfold serial in E.
  assert (H : ∀ (l : list (Z * V)) k v,
            (k, v) ∈ l → k ≤ foldr (λ row acc, Z.max row.1 acc) 0 l).
  { clear. induction l as [|[k' v'] l IH]; intros k v Hin.
    - by apply elem_of_nil in Hin.
    - apply elem_of_cons in Hin as [[= -> ->]|Hin]; simpl; [lia|].
      specialize (IH _ _ Hin). lia. }
  specialize (H _ _ _ E). lia.
Qed.

Lemma cache_reread_after_mutation_witness :
  (∃ w', run_mutation serial serial (ToggleDone 1) scenario = (Return tt, w')
         ∧ reread (ToggleDone 1) w')
  ∧ (∃ w', run_mutation serial serial (Update 1) scenario_with_status = (Return tt, w')
           ∧ reread (Update 1) w')
  ∧ (∃ w', run_mutation serial serial (Create may_20_2024)
             (new_todo_form scenario_new_form scenario) = (Return tt, w')
           ∧ reread (Create may_20_2024) w')
  ∧ (∃ w', run_mutation serial serial (Delete 1) scenario = (Return tt, w')
           ∧ reread (Delete 1) w').
Proof.
  split_and!.
  - apply (cache_reread_after_mutation serial serial (ToggleDone 1) scenario).
    exists (load_all_todos scenario_db), report_todo. split; reflexivity.
  - apply (cache_reread_after_mutation serial serial (Update 1) scenario_with_status).
    simpl. split_and!; try (eexists; vm_compute; reflexivity).
    exists "Write report v2". split; [vm_compute; reflexivity|discriminate].
  - apply (cache_reread_after_mutation serial serial (Create may_20_2024)).
    exists scenario_new_form, scenario. split; [reflexivity|discriminate].
  - apply (cache_reread_after_mutation serial serial (Delete 1) scenario). exact I.
Defined.

Lemma create_adds_one_task_witness :
  ∃ w' todos todos' new_id,
    submit serial serial (SubmitNew may_20_2024 scenario_new_form) scenario
    = (Return tt, w')
    ∧ (∃ values, executed (db w') = executed (db scenario) ++ [InsertTodo values])
    ∧ size (todo_table (db w')) = S (size (todo_table (db scenario)))
    ∧ subtask_table (db w') = subtask_table (db scenario)
    ∧ todos_data (session scenario) = Some todos
    ∧ todos_data (session w') = Some todos'
    ∧ size todos' = S (size todos)
    ∧ todos !! new_id = None
    ∧ todos' = <[new_id :=
                   Some (Todo.make new_id "Pay rent" (Some "") (Some "personal")
                           (Some "") (Some "medium") (Some "to-do")
                           (Some may_20_2024) (Some june_1_2024) false)]> todos.
Proof.
  apply (create_adds_one_task serial serial (@serial_fresh _)
           may_20_2024 scenario_new_form scenario).
  - reflexivity.
  - discriminate.
Defined.

Lemma reachable_edit_raises_witness :
  submit serial serial (SubmitEdit 1 scenario_edit_form)
    (snd (handle serial serial plain_title plain_strftime plain_urlencode (EditOpened 1)
            (snd (handle serial serial plain_title plain_strftime plain_urlencode FirstRun
                    (new_session scenario_db)))))
  = (Raise KeyError,
     todo_edit_widget 1 scenario_edit_form
       (snd (handle serial serial plain_title plain_strftime plain_urlencode (EditOpened 1)
               (snd (handle serial serial plain_title plain_strftime plain_urlencode FirstRun
                       (new_session scenario_db)))))).
Proof.
  apply (reachable_edit_raises serial serial plain_title plain_strftime plain_urlencode).
  eapply reachable_handle; [|apply surjective_pairing].
  eapply reachable_handle; [|apply surjective_pairing].
  apply reachable_new.
Defined.

(** The submission of the edit form in the scenario: [KeyError], and the
    row of the task still has its old title. *)
Example edit_submission_scenario :
  let r := submit serial serial (SubmitEdit 1 scenario_edit_form) scenario in
  fst r = Raise KeyError
  ∧ db (snd r) = scenario_db
  ∧ TodoRow.title <$> todo_table (db (snd r)) !! 1 = Some "Write report".
Proof. vm_compute. done. Qed.

Lemma empty_title_writes_nothing_witness :
  (∃ o w',
     submit serial serial
       (SubmitNew may_20_2024
          (NewTodoForm.make "" (Some "x") None (Some "low") (Some "to-do")
             (Some "work") (Some june_1_2024))) scenario = (o, w')
     ∧ db w' = db scenario
     ∧ todos_data (session w') = todos_data (session scenario))
  ∧ (∃ o w',
       submit serial serial
         (SubmitEdit 1 (EditTodoForm.make "" None None)) scenario_with_status
       = (o, w')
       ∧ db w' = db scenario_with_status
       ∧ todos_data (session w') = todos_data (session scenario_with_status)).
Proof.
  split.
  - apply (empty_title_writes_nothing serial serial
             (SubmitNew may_20_2024
                (NewTodoForm.make "" (Some "x") None (Some "low") (Some "to-do")
                   (Some "work") (Some june_1_2024))) scenario).
    reflexivity.
  - apply (empty_title_writes_nothing serial serial
             (SubmitEdit 1 (EditTodoForm.make "" None None)) scenario_with_status).
    reflexivity.
Defined.


(** The subtask of the deleted task is still returned by [load_subtasks]. *)
Example orphan_subtask_scenario :
  load_subtasks 1 (db (snd (run_mutation serial serial (Delete 1) scenario)))
  = [Subtask.make 1 1 "Outline" false]
  ∧ load_todo 1 (db (snd (run_mutation serial serial (Delete 1) scenario))) = None.
Proof. vm_compute. done. Qed.

Lemma toggle_done_twice_witness :
  ∃ w1 w2 todos1 todo1,
    run_mutation serial serial (ToggleDone 1) scenario = (Return tt, w1)
    ∧ executed (db w1)
      = executed (db scenario) ++ [UpdateTodo 1 [SetDone (negb (Todo.done report_todo))]]
    ∧ todos_data (session w1) = Some todos1
    ∧ todos1 !! 1 = Some (Some todo1)
    ∧ Todo.done todo1 = negb (Todo.done report_todo)
    ∧ run_mutation serial serial (ToggleDone 1) w1 = (Return tt, w2)
    ∧ executed (db w2)
      = executed (db scenario)
        ++ [UpdateTodo 1 [SetDone (negb (Todo.done report_todo))];
            UpdateTodo 1 [SetDone (Todo.done report_todo)]]
    ∧ todos_data (session w2) = Some (load_all_todos scenario_db)
    ∧ todo_table (db w2) = todo_table (db scenario)
    ∧ subtask_table (db w2) = subtask_table (db scenario).
Proof.
  apply (toggle_done_twice serial serial 1 report_todo scenario
           (load_all_todos scenario_db)); reflexivity.
Defined.

(** Stated for every list, C8 fails on a task due on [date.max]: it has the
    key of the undated task, and the stable sort keeps the two in the order
    they came in. *)
Lemma undated_last_counterexample :
  ¬ undated_last (sorted_todos by_due_at "Ascending" [todo_undated; todo_due_max])
  ∧ ¬ undated_first (sorted_todos by_due_at "Descending" [todo_due_max; todo_undated]).
Proof.
  split; intros H.
  - specialize (H 0%nat 1%nat todo_undated todo_due_max eq_refl eq_refl eq_refl).
    specialize (H ltac:(discriminate)). lia.
  - specialize (H 1%nat 0%nat todo_undated todo_due_max eq_refl eq_refl eq_refl).
    specialize (H ltac:(discriminate)). lia.
Qed.

Lemma undated_tasks_sort_as_latest_witness :
  (∀ i j : nat,
     sorted_todos by_due_at "Ascending" [todo_undated; report_todo] !! i
     = Some todo_undated →
     sorted_todos by_due_at "Ascending" [todo_undated; report_todo] !! j
     = Some report_todo → (j < i)%nat)
  ∧ (∀ i j : nat,
       sorted_todos by_due_at "Descending" [report_todo; todo_undated] !! i
       = Some todo_undated →
       sorted_todos by_due_at "Descending" [report_todo; todo_undated] !! j
       = Some report_todo → (i < j)%nat)
  ∧ List.filter undated_or_due_max
      (sorted_todos by_due_at "Ascending" [todo_undated; report_todo; todo_due_max])
    = [todo_undated; todo_due_max]
  ∧ List.filter undated_or_due_max
      (sorted_todos by_due_at "Descending" [todo_due_max; report_todo; todo_undated])
    = [todo_due_max; todo_undated].
Proof.
  split; [|split; [|split]].
  - intros i j.
    apply (proj1 (proj2 (proj2
             (undated_tasks_sort_as_latest [todo_undated; report_todo])))
             todo_undated report_todo june_1_2024 i j); reflexivity.
  - intros i j.
    apply (proj1 (proj2 (proj2 (proj2
             (undated_tasks_sort_as_latest [report_todo; todo_undated]))))
             todo_undated report_todo june_1_2024 i j); reflexivity.
  - apply (proj1 (proj2 (proj2 (proj2 (proj2
             (undated_tasks_sort_as_latest
                [todo_undated; report_todo; todo_due_max])))))).
  - apply (proj2 (proj2 (proj2 (proj2 (proj2
             (undated_tasks_sort_as_latest
                [todo_due_max; report_todo; todo_undated])))))).
Defined.

Example sorted_todos_scenario :
  sorted_todos by_due_at "Ascending" [todo_undated; report_todo]
  = [report_todo; todo_undated]
  ∧ sorted_todos by_due_at "Descending" [report_todo; todo_undated]
    = [todo_undated; report_todo].
Proof. vm_compute. done. Qed.

Lemma absent_field_filtered_out_witness :
  (todo_unlabelled ∉ filtered_todos [todo_unlabelled; report_todo]
                       ["work"] ["low"] ["to-do"] true)
  ∧ (todo_unlabelled ∉ filtered_todos [todo_unlabelled; report_todo]
                         label_options priority_options status_options false).
Proof.
  apply (absent_field_filtered_out [todo_unlabelled; report_todo]
           ["work"] ["low"] ["to-do"] true todo_unlabelled).
  left. reflexivity.
Defined.

Lemma todo_card_needs_due_date_witness :
  (∃ meta,
     todo_card serial serial plain_title plain_strftime plain_urlencode todo_undated scenario
     = (Raise AttributeError,
        mkWorld (db scenario) (session scenario) (toasts scenario)
          (page scenario
           ++ [Subheader (strike (Todo.done todo_undated) (Todo.title todo_undated));
               Markdown meta;
               Markdown (strike (Todo.done todo_undated)
                           (text_or (Todo.description todo_undated)
                              ":grey[*No description*]"))])))
  ∧ generate_gcal_link plain_strftime plain_urlencode (Todo.title todo_undated)
      (Todo.description todo_undated) (Todo.due_at todo_undated) scenario
    = (Raise AttributeError, scenario).
Proof.
  apply (todo_card_needs_due_date serial serial plain_title plain_strftime plain_urlencode todo_undated scenario).
  reflexivity.
Defined.

(** The card of the task of the scenario, which has a due date, is rendered
    in full: its subtask is listed and nothing is written. *)
Example todo_card_scenario :
  let r := todo_card serial serial plain_title plain_strftime plain_urlencode
             report_todo scenario in
  fst r = Return tt
  ∧ db (snd r) = scenario_db
  ∧ length (page (snd r)) = 16%nat.
Proof. vm_compute. done. Qed.

(** * The further properties on the scenario *)

Lemma reachable_in_sync_witness :
  in_sync (snd (handle serial serial plain_title plain_strftime plain_urlencode
                  (DoneClicked 1)
                  (snd (handle serial serial plain_title plain_strftime plain_urlencode
                          FirstRun (new_session scenario_db))))).
Proof.
  apply (reachable_in_sync serial serial plain_title plain_strftime plain_urlencode).
  - eapply reachable_handle; [|apply surjective_pairing].
    eapply reachable_handle; [|apply surjective_pairing].
    apply reachable_new.
  - eexists. vm_compute. reflexivity.
Defined.

Lemma create_todo_callback_outcomes_witness :
  let r := create_todo_callback serial serial may_20_2024
             (new_todo_form scenario_new_form scenario) in
  (fst r = Raise AttributeError ∧ snd r = new_todo_form scenario_new_form scenario)
  ∨ (fst r = Return tt
     ∧ snd r = mkWorld (db (new_todo_form scenario_new_form scenario))
                 (session (new_todo_form scenario_new_form scenario))
                 (toasts (new_todo_form scenario_new_form scenario)
                  ++ ["Title empty, not adding todo"])
                 (page (new_todo_form scenario_new_form scenario)))
  ∨ (fst r = Return tt
     ∧ (∃ values, executed (db (snd r))
                  = executed (db (new_todo_form scenario_new_form scenario))
                    ++ [InsertTodo values])
     ∧ size (todo_table (db (snd r)))
       = S (size (todo_table (db (new_todo_form scenario_new_form scenario))))
     ∧ subtask_table (db (snd r))
       = subtask_table (db (new_todo_form scenario_new_form scenario))
     ∧ in_sync (snd r)).
Proof.
  intros r.
  apply (create_todo_callback_outcomes serial serial (@serial_fresh _) may_20_2024
           (new_todo_form scenario_new_form scenario) (fst r) (snd r)).
  apply surjective_pairing.
Defined.

Lemma mark_done_callback_raises_witness :
  mark_done_callback serial serial 1 (new_session scenario_db)
  = (Raise KeyError, new_session scenario_db).
Proof.
  apply (mark_done_callback_raises serial serial 1 (new_session scenario_db)).
  intros todos todo H. discriminate H.
Defined.

Lemma mark_done_callback_row_gone_witness :
  ∃ w1,
    mark_done_callback serial serial 7 scenario_stale = (Return tt, w1)
    ∧ executed (db w1)
      = executed (db scenario_stale) ++ [UpdateTodo 7 [SetDone (negb (Todo.done todo_gone))]]
    ∧ todo_table (db w1) = todo_table (db scenario_stale)
    ∧ todos_data (session w1)
      = Some (<[7 := None]> (<[7 := Some todo_gone]> (load_all_todos scenario_db)))
    ∧ mark_done_callback serial serial 7 w1 = (Raise AttributeError, w1).
Proof.
  apply (mark_done_callback_row_gone serial serial 7 todo_gone scenario_stale
           (<[7 := Some todo_gone]> (load_all_todos scenario_db))); reflexivity.
Defined.

Lemma update_todo_callback_outcomes_witness :
  let r := update_todo_callback serial serial 1 scenario in
  (fst r = Raise KeyError ∧ snd r = scenario)
  ∨ (fst r = Return tt
     ∧ snd r = mkWorld (db scenario)
                 (mkSessionState (text_state (session scenario))
                    (date_state (session scenario))
                    (<[currently_editing_key 1 := true]> (flag_state (session scenario)))
                    (todos_data (session scenario)))
                 (toasts scenario ++ ["Title cannot be empty."]) (page scenario))
  ∨ ((∃ values, db (snd r) = execute serial serial (UpdateTodo 1 values) (db scenario))
     ∧ ((fst r = Return tt
         ∧ (∃ todos, todos_data (session scenario) = Some todos
                     ∧ todos_data (session (snd r))
                       = Some (<[1 := load_todo 1 (db (snd r))]> todos))
         ∧ flag_state (session (snd r)) !! currently_editing_key 1 = Some false)
        ∨ (fst r = Raise KeyError
           ∧ todos_data (session scenario) = None
           ∧ session (snd r) = session scenario))).
Proof.
  intros r.
  apply (update_todo_callback_outcomes serial serial 1 scenario (fst r) (snd r)).
  apply surjective_pairing.
Defined.

Lemma update_todo_callback_writes_witness :
  ∃ w',
    update_todo_callback serial serial 1 scenario_with_status = (Return tt, w')
    ∧ executed (db w')
      = executed (db scenario_with_status)
        ++ [UpdateTodo 1 [SetTitle "Write report v2"; SetDescription None;
                          SetStatus (Some "in progress"); SetRequester None;
                          SetDueAt (Some june_1_2024)]]
    ∧ todo_table (db w')
      = <[1 := TodoRow.make "Write report v2" None (TodoRow.label report_row)
                 (TodoRow.priority report_row) (Some "in progress") None
                 (TodoRow.created_at report_row) (Some june_1_2024)
                 (TodoRow.done report_row)]>
          (todo_table (db scenario_with_status))
    ∧ subtask_table (db w') = subtask_table (db scenario_with_status)
    ∧ todos_data (session w')
      = Some (<[1 := Some (Todo.make 1 "Write report v2" None
                             (TodoRow.label report_row) None
                             (TodoRow.priority report_row) (Some "in progress")
                             (TodoRow.created_at report_row) (Some june_1_2024)
                             (TodoRow.done report_row))]>
                (load_all_todos scenario_db))
    ∧ flag_state (session w') !! currently_editing_key 1 = Some false.
Proof.
  apply (update_todo_callback_writes serial serial 1 scenario_with_status
           "Write report v2" None (Some "in progress") None (Some june_1_2024)
           (load_all_todos scenario_db) report_row);
    try reflexivity; try (vm_compute; reflexivity).
  discriminate.
Defined.

Lemma create_then_delete_witness :
  ∃ w1 w2 new_id values,
    submit serial serial (SubmitNew may_20_2024 scenario_new_form) scenario
    = (Return tt, w1)
    ∧ todo_table (db scenario) !! new_id = None
    ∧ is_Some (todo_table (db w1) !! new_id)
    ∧ run_mutation serial serial (Delete new_id) w1 = (Return tt, w2)
    ∧ todo_table (db w2) = todo_table (db scenario)
    ∧ subtask_table (db w2) = subtask_table (db scenario)
    ∧ todos_data (session w2) = todos_data (session scenario)
    ∧ executed (db w2)
      = executed (db scenario) ++ [InsertTodo values; DeleteTodo new_id].
Proof.
  apply (create_then_delete serial serial (@serial_fresh _) may_20_2024
           scenario_new_form scenario).
  - reflexivity.
  - discriminate.
Defined.

Lemma create_subtask_adds_one_witness :
  ∃ w' new_id,
    create_subtask serial serial 1 "Draft" scenario = (Return tt, w')
    ∧ executed (db w') = executed (db scenario) ++ [InsertSubtask 1 "Draft" false]
    ∧ subtask_table (db scenario) !! new_id = None
    ∧ load_subtasks 1 (db w')
      ≡ₚ Subtask.make new_id 1 "Draft" false :: load_subtasks 1 (db scenario)
    ∧ (∀ k, k ≠ 1 → load_subtasks k (db w') ≡ₚ load_subtasks k (db scenario))
    ∧ todo_table (db w') = todo_table (db scenario)
    ∧ session w' = session scenario.
Proof.
  apply (create_subtask_adds_one serial serial (@serial_fresh _) 1 "Draft" scenario).
Defined.

Lemma subtask_checkbox_pending_witness :
  ∃ w' w'' r',
    subtask_checkbox serial serial
      (Subtask.from_row (1, SubtaskRow.make 1 "Outline" false)) scenario_ticked
    = (Raise RerunException, w')
    ∧ executed (db w') = executed (db scenario_ticked) ++ [UpdateSubtask 1 true]
    ∧ subtask_table (db w') !! 1 = Some r'
    ∧ r' = SubtaskRow.make 1 "Outline" true
    ∧ (∀ j, j ≠ 1 → subtask_table (db w') !! j = subtask_table (db scenario_ticked) !! j)
    ∧ todo_table (db w') = todo_table (db scenario_ticked)
    ∧ session w' = session scenario_ticked
    ∧ subtask_checkbox serial serial (Subtask.from_row (1, r')) w' = (Return tt, w'')
    ∧ db w'' = db w'.
Proof.
  apply (subtask_checkbox_pending serial serial 1 (SubtaskRow.make 1 "Outline" false)
           true scenario_ticked).
  - reflexivity.
  - reflexivity.
  - discriminate.
Defined.

(** With the check box ticked, the card of the scenario writes the subtask
    and asks for a rerun. *)
Example todo_card_ticked_scenario :
  let r := todo_card serial serial plain_title plain_strftime plain_urlencode
             report_todo scenario_ticked in
  fst r = Raise RerunException
  ∧ executed (db (snd r)) = [UpdateSubtask 1 true]
  ∧ load_subtasks 1 (db (snd r)) = [Subtask.make 1 1 "Outline" true].
Proof. vm_compute. done. Qed.

Lemma done_status_filtered_out_witness :
  "done" ∈ new_todo_status_options
  ∧ (todo_status_done ∉ filtered_todos [todo_status_done; report_todo]
                          label_options priority_options status_options false).
Proof.
  apply (done_status_filtered_out [todo_status_done; report_todo]
           label_options priority_options status_options false todo_status_done).
  - done.
  - reflexivity.
Defined.

Lemma filtered_todos_monotone_witness :
  (∀ t, t ∈ filtered_todos [todo_undated; report_todo] ["work"] ["high"] ["to-do"] true →
        t ∈ filtered_todos [todo_undated; report_todo]
              label_options priority_options status_options false)
  ∧ filtered_todos [todo_undated; report_todo] ["work"] ["high"] ["to-do"] true
    = List.filter (λ t, negb (Todo.done t))
        (filtered_todos [todo_undated; report_todo] ["work"] ["high"] ["to-do"] false).
Proof.
  apply (filtered_todos_monotone [todo_undated; report_todo]
           ["work"] ["high"] ["to-do"]
           label_options priority_options status_options true false).
  - intros x ->%list_elem_of_singleton. apply list_elem_of_here.
  - intros x ->%list_elem_of_singleton. do 2 apply list_elem_of_further.
    apply list_elem_of_here.
  - intros x ->%list_elem_of_singleton. apply list_elem_of_here.
  - discriminate.
Defined.

Lemma sorted_todos_ordered_witness :
  if String.eqb "Descending" "Descending"
  then date_leb (sort_key by_created_at report_todo)
         (sort_key by_created_at todo_undated) = true
  else date_leb (sort_key by_created_at todo_undated)
         (sort_key by_created_at report_todo) = true.
Proof.
  apply (proj1 (proj2 (sorted_todos_ordered by_created_at "Descending"
                         [todo_undated; report_todo]))
           0%nat 1%nat todo_undated report_todo).
  - reflexivity.
  - reflexivity.
  - lia.
Defined.

Lemma todo_card_run_effects_witness :
  let r := todo_card_run serial serial plain_title plain_strftime plain_urlencode
             plain_strip AddSubtaskClick report_todo scenario_typed in
  text_state (session (snd r)) = text_state (session scenario_typed)
  ∧ (∀ e, fst r = Raise e →
          e = RerunException ∨ (e = AttributeError ∧ Todo.due_at report_todo = None))
  ∧ ((db (snd r) = db scenario_typed
      ∧ todos_data (session (snd r)) = todos_data (session scenario_typed))
     ∨ (fst r = Raise RerunException
        ∧ ((∃ k b, db (snd r) = execute serial serial (UpdateSubtask k b) (db scenario_typed)
                   ∧ todos_data (session (snd r)) = todos_data (session scenario_typed))
           ∨ (AddSubtaskClick = DeleteClick
              ∧ db (snd r) = execute serial serial (DeleteTodo (Todo.id report_todo))
                               (db scenario_typed)
              ∧ todos_data (session (snd r)) = Some (load_all_todos (db (snd r))))
           ∨ (AddSubtaskClick = MarkAllDoneClick
              ∧ db (snd r) = execute serial serial
                               (UpdateSubtasksOf (Todo.id report_todo) true)
                               (db scenario_typed)
              ∧ todos_data (session (snd r)) = todos_data (session scenario_typed))
           ∨ (AddSubtaskClick = AddSubtaskClick
              ∧ ∃ text, plain_strip text ≠ ""
                        ∧ db (snd r) = execute serial serial
                                         (InsertSubtask (Todo.id report_todo)
                                            (plain_strip text) false)
                                         (db scenario_typed)
                        ∧ todos_data (session (snd r))
                          = todos_data (session scenario_typed))))).
Proof.
  intros r.
  apply (todo_card_run_effects serial serial plain_title plain_strftime plain_urlencode
           plain_strip AddSubtaskClick report_todo scenario_typed (fst r) (snd r)).
  apply surjective_pairing.
Defined.

(** The three buttons on the scenario: each click writes what its branch
    writes, and the run ends in a rerun. *)
Example todo_card_run_clicks_scenario :
  let run click w :=
    todo_card_run serial serial plain_title plain_strftime plain_urlencode
      plain_strip click report_todo w in
  fst (run AddSubtaskClick scenario_typed) = Raise RerunException
  ∧ executed (db (snd (run AddSubtaskClick scenario_typed)))
    = [InsertSubtask 1 "Draft" false]
  ∧ fst (run AddSubtaskClick scenario) = Return tt
  ∧ executed (db (snd (run AddSubtaskClick scenario))) = []
  ∧ fst (run MarkAllDoneClick scenario) = Raise RerunException
  ∧ executed (db (snd (run MarkAllDoneClick scenario))) = [UpdateSubtasksOf 1 true]
  ∧ fst (run DeleteClick scenario) = Raise RerunException
  ∧ executed (db (snd (run DeleteClick scenario))) = [DeleteTodo 1]
  ∧ todos_data (session (snd (run DeleteClick scenario))) = Some ∅
  ∧ fst (run NoClick scenario) = Return tt
  ∧ executed (db (snd (run NoClick scenario))) = [].
Proof. vm_compute. done. Qed.

Lemma todo_card_run_completes_witness :
  ∃ w',
    todo_card_run serial serial plain_title plain_strftime plain_urlencode plain_strip
      NoClick report_todo scenario = (Return tt, w')
    ∧ db w' = db scenario
    ∧ todos_data (session w') = todos_data (session scenario)
    ∧ text_state (session w') = text_state (session scenario)
    ∧ Forall (checkbox_agrees (session w'))
        (load_subtasks (Todo.id report_todo) (db scenario)).
Proof.
  apply (todo_card_run_completes serial serial plain_title plain_strftime
           plain_urlencode plain_strip report_todo june_1_2024 scenario).
  - reflexivity.
  - vm_compute. repeat constructor.
Defined.

Lemma todo_card_run_delete_witness :
  ∃ w',
    todo_card_run serial serial plain_title plain_strftime plain_urlencode plain_strip
      DeleteClick report_todo scenario = (Raise RerunException, w')
    ∧ db w' = execute serial serial (DeleteTodo (Todo.id report_todo)) (db scenario)
    ∧ todo_table (db w') !! Todo.id report_todo = None
    ∧ todos_data (session w') = Some (load_all_todos (db w'))
    ∧ load_all_todos (db w') !! Todo.id report_todo = None
    ∧ subtask_table (db w') = subtask_table (db scenario)
    ∧ text_state (session w') = text_state (session scenario).
Proof.
  apply (todo_card_run_delete serial serial plain_title plain_strftime
           plain_urlencode plain_strip report_todo june_1_2024 scenario).
  reflexivity.
Defined.
